(** * pc_temp_monitor: sensor fallback chain and streaming loop

    A shallow embedding of [pc_temp_monitor.py] and the properties its
    design document states about it.

    Modelling conventions.
    - A Python [str] is a Rocq [string]; one [ascii] stands for one code
      point, so the modelled alphabet is Latin-1 (code points 0..255).  The
      degree sign of the source is code point 176.
    - A Python [float] is an exact rational ([Q]); [round(x, 1)] and the
      [:.1f] format round the exact value to tenths, ties to even.
    - Files, sub-processes, [psutil] and the serial port are read from an
      explicit description of the host; a raised exception is a value.
    - [print] writes to the console only and is not recorded; the evaluation
      of its f-string is, since a free variable of it can be unbound. *)

From Stdlib Require Import List String Ascii Bool ZArith NArith QArith Qround Qabs Lia Lqa.
From Stdlib Require Import DecimalString DecimalN.
Import ListNotations.

Local Open Scope string_scope.

(* ===================================================================== *)
(** ** Python text primitives *)
(* ===================================================================== *)

Module PyText.

Definition code (c : ascii) : N := N_of_ascii c.

Definition code_between (lo hi : N) (c : ascii) : bool :=
  (lo <=? code c)%N && (code c <=? hi)%N.

Definition newline : ascii := "010"%char.

(** The line terminator, as a text. *)
Definition nl : string := String newline EmptyString.
Definition degree : ascii := "176"%char.

(** [str.isspace] on one code point: TAB..CR, FS..US, space, NEL, NBSP. *)
Definition isspace (c : ascii) : bool :=
  code_between 9 13 c || code_between 28 32 c || (code c =? 133)%N || (code c =? 160)%N.

(** ['0'..'9']: what [\d], [int] and [float] take for a digit. *)
Definition is_decimal (c : ascii) : bool := code_between 48 57 c.

(** [str.isdigit] on one code point: the decimal digits and the
    superscripts 2, 3 and 1 (178, 179, 185). *)
Definition isdigit_char (c : ascii) : bool :=
  is_decimal c || (code c =? 178)%N || (code c =? 179)%N || (code c =? 185)%N.

Definition digit_val (c : ascii) : N := (code c - 48)%N.

(** [str.lower] on one code point: A..Z and the accented capitals
    192..222 (the multiplication sign 215 apart) move up by 32. *)
Definition lower_char (c : ascii) : ascii :=
  if code_between 65 90 c || (code_between 192 222 c && negb (code c =? 215)%N)
  then ascii_of_N (code c + 32)
  else c.

Fixpoint lower (s : string) : string :=
  match s with
  | EmptyString => EmptyString
  | String c s' => String (lower_char c) (lower s')
  end.

Definition is_empty (s : string) : bool :=
  match s with EmptyString => true | _ => false end.

Fixpoint forall_chars (p : ascii -> bool) (s : string) : bool :=
  match s with
  | EmptyString => true
  | String c s' => p c && forall_chars p s'
  end.

Fixpoint lstrip (s : string) : string :=
  match s with
  | EmptyString => EmptyString
  | String c s' => if isspace c then lstrip s' else s
  end.

Fixpoint rstrip (s : string) : string :=
  match s with
  | EmptyString => EmptyString
  | String c s' =>
      let r := rstrip s' in
      if isspace c && is_empty r then EmptyString else String c r
  end.

(** [s.strip()] *)
Definition strip (s : string) : string := rstrip (lstrip s).

(** [s.replace(c, '')] for a one-character [c]. *)
Fixpoint remove_char (x : ascii) (s : string) : string :=
  match s with
  | EmptyString => EmptyString
  | String c s' =>
      if Ascii.eqb c x then remove_char x s' else String c (remove_char x s')
  end.

(** [s.isdigit()]: at least one character, all of them digits. *)
Definition isdigit (s : string) : bool :=
  negb (is_empty s) && forall_chars isdigit_char s.

(** [s.startswith(p)] *)
Definition startswith (p s : string) : bool := String.prefix p s.

(** [needle in hay] *)
Fixpoint contains (needle hay : string) : bool :=
  String.prefix needle hay ||
  match hay with
  | EmptyString => false
  | String _ hay' => contains needle hay'
  end.

(** [s.endswith(suf)] *)
Fixpoint endswith (suf s : string) : bool :=
  String.eqb s suf ||
  match s with
  | EmptyString => false
  | String _ s' => endswith suf s'
  end.

(** [s.split()]: the maximal runs of non-blank characters. *)
Fixpoint split_ws (s : string) : list string :=
  match s with
  | EmptyString => []
  | String c s' =>
      if isspace c then split_ws s'
      else
        match s' with
        | String c' _ =>
            if isspace c' then String c EmptyString :: split_ws s'
            else
              match split_ws s' with
              | t :: ts => String c t :: ts
              | [] => [String c EmptyString]
              end
        | EmptyString => [String c EmptyString]
        end
  end.

(** [s.split('\n')]: one more piece than there are newlines. *)
Fixpoint split_nl (s : string) : list string :=
  match s with
  | EmptyString => [EmptyString]
  | String c s' =>
      if Ascii.eqb c newline then EmptyString :: split_nl s'
      else
        match split_nl s' with
        | t :: ts => String c t :: ts
        | [] => [String c EmptyString]
        end
  end.

(** [f.readlines()]: the lines of the text, each with its newline. *)
Fixpoint readlines (s : string) : list string :=
  match s with
  | EmptyString => []
  | String c s' =>
      if Ascii.eqb c newline then String c EmptyString :: readlines s'
      else
        match readlines s' with
        | t :: ts => String c t :: ts
        | [] => [String c EmptyString]
        end
  end.

(** [s.encode()]: UTF-8; a code point above 127 takes two bytes. *)
Fixpoint encode (s : string) : list N :=
  match s with
  | EmptyString => []
  | String c s' =>
      (if (code c <? 128)%N then [code c]
       else [(192 + code c / 64)%N; (128 + code c mod 64)%N]) ++ encode s'
  end.

End PyText.

(* ===================================================================== *)
(** ** Python numbers *)
(* ===================================================================== *)

Module PyNum.
Import PyText.

Local Open Scope Q_scope.

(** The nearest integer, a tie going to the even one. *)
Definition round_half_even (q : Q) : Z :=
  let f := Qfloor q in
  let r := q - inject_Z f in
  if Qle_bool r (1 # 2)
  then if Qle_bool (1 # 2) r then (if Z.even f then f else f + 1)%Z else f
  else (f + 1)%Z.

(** [round(x, 1)] *)
Definition round1 (x : Q) : Q := Qred (inject_Z (round_half_even (x * 10)) / 10).

(** [a <= x <= b] *)
Definition between (a x b : Q) : bool := Qle_bool a x && Qle_bool x b.

(** [max(a, b)]: the first argument unless the second is greater. *)
Definition max2 (a b : Q) : Q := if Qle_bool b a then a else b.

(** [max(l)] on a list that is not empty: the first greatest element. *)
Definition max_list (x : Q) (xs : list Q) : Q := fold_left max2 xs x.

(** [sum(l)] *)
Definition sum (l : list Q) : Q := fold_left Qplus l 0.

(** The decimal numeral of a natural number, as [str] prints it. *)
Definition str_of_N (n : N) : string := NilZero.string_of_uint (N.to_uint n).


(** [f"{x:.1f}"] *)
Definition format_1f (x : Q) : string :=
  let t := Z.abs_N (round_half_even (x * 10)) in
  ((if Qle_bool 0 x then "" else "-")
     ++ str_of_N (t / 10) ++ "." ++ str_of_N (t mod 10))%string.

(** The value of a run of decimal digits, most significant first. *)
Fixpoint digits_val (s : string) (acc : N) : N :=
  match s with
  | EmptyString => acc
  | String c s' => digits_val s' (acc * 10 + digit_val c)%N
  end.

(** The text before the first ['.'] and, when there is one, the text
    after it. *)
Fixpoint split_dot (s : string) : string * option string :=
  match s with
  | EmptyString => (EmptyString, None)
  | String c s' =>
      if Ascii.eqb c "."
      then (EmptyString, Some s')
      else let '(a, b) := split_dot s' in (String c a, b)
  end.

Definition float_unsigned (s : string) : option Q :=
  match split_dot s with
  | (a, None) =>
      if negb (is_empty a) && forall_chars is_decimal a
      then Some (inject_Z (Z.of_N (digits_val a 0)))
      else None
  | (a, Some b) =>
      if forall_chars is_decimal a && forall_chars is_decimal b
         && negb (is_empty a && is_empty b)
      then Some (Qred (inject_Z (Z.of_N (digits_val (a ++ b) 0))
                       / inject_Z (10 ^ Z.of_nat (String.length b))))
      else None
  end.

(** [float(s)] on the texts the program hands to it: digits with at most
    one point, after an optional sign.  [None] is [ValueError].  (Exponents,
    [inf], [nan], underscores and blanks never reach [float] here: the
    callers let through only digits and points, or a match of the
    temperature pattern.) *)
Definition py_float (s : string) : option Q :=
  match s with
  | String "+" s' => float_unsigned s'
  | String "-" s' => option_map Qopp (float_unsigned s')
  | _ => float_unsigned s
  end.

(** Digits of an [int] literal: single underscores may separate them. *)
Fixpoint int_digits (s : string) (acc : N) (after_digit : bool) : option N :=
  match s with
  | EmptyString => if after_digit then Some acc else None
  | String c s' =>
      if is_decimal c then int_digits s' (acc * 10 + digit_val c)%N true
      else if Ascii.eqb c "_" && after_digit then int_digits s' acc false
      else None
  end.

(** [int(s)] on a text without blanks; [None] is [ValueError]. *)
Definition py_int (s : string) : option Z :=
  match s with
  | String "+" s' => option_map Z.of_N (int_digits s' 0 false)
  | String "-" s' => option_map (fun n => (- Z.of_N n)%Z) (int_digits s' 0 false)
  | _ => option_map Z.of_N (int_digits s 0 false)
  end.

End PyNum.

(* ===================================================================== *)
(** ** The temperature pattern of the sensor-daemon probe *)
(* ===================================================================== *)

Module Pattern.
Import PyText.

(** One step of a backtracking matcher: the ways to split the subject into
    what the step consumes and what it leaves, in the order the engine
    tries them. *)
Definition step := string -> list (string * string).

Definition take_more (c : ascii) (l : list (string * string)) :=
  map (fun '(t, r) => (String c t, r)) l.

(** [cls*], greedy: the longest run first, then each shorter one. *)
Fixpoint star (cls : ascii -> bool) (s : string) : list (string * string) :=
  match s with
  | String c s' =>
      if cls c then take_more c (star cls s') ++ [(EmptyString, s)]
      else [(EmptyString, s)]
  | EmptyString => [(EmptyString, EmptyString)]
  end.

(** [cls+], greedy. *)
Definition plus (cls : ascii -> bool) : step :=
  fun s => filter (fun '(t, _) => negb (is_empty t)) (star cls s).

(** [cls?], greedy: with the character first, then without. *)
Definition opt (cls : ascii -> bool) : step :=
  fun s =>
    match s with
    | String c s' =>
        if cls c then [(String c EmptyString, s'); (EmptyString, s)]
        else [(EmptyString, s)]
    | EmptyString => [(EmptyString, EmptyString)]
    end.

Definition is_sign (c : ascii) : bool := Ascii.eqb c "+" || Ascii.eqb c "-".
Definition is_dot (c : ascii) : bool := Ascii.eqb c ".".

Definition deg_C : string := String degree "C".
Definition deg_c : string := String degree "c".

(** The temperature pattern of the source: group 1 is an optional sign,
    one or more digits, an optional point and any number of digits; after
    the group come any number of blanks, the degree sign and a capital C.
    [match_here] lists the matches that start at the head of the subject,
    each given by its group 1, in the engine's order. *)
Definition match_here (s : string) : list string :=
  flat_map (fun '(sg, r1) =>
  flat_map (fun '(d1, r2) =>
  flat_map (fun '(dt, r3) =>
  flat_map (fun '(d2, r4) =>
  flat_map (fun '(_, r5) =>
    if String.prefix deg_C r5 then [(sg ++ d1 ++ dt ++ d2)%string] else [])
  (star isspace r4))
  (star is_decimal r3))
  (opt is_dot r2))
  (plus is_decimal r1))
  (opt is_sign s).

(** [re.search] with the temperature pattern: group 1 of the first match
    at the leftmost position that has one. *)
Fixpoint search (s : string) : option string :=
  match match_here s with
  | g :: _ => Some g
  | [] =>
      match s with
      | EmptyString => None
      | String _ s' => search s'
      end
  end.

End Pattern.

(* ===================================================================== *)
(** ** The host: files, sub-processes and [psutil] *)
(* ===================================================================== *)

Module Host.

(** What a path holds when the program looks at it.  The text is what
    [f.read()] returns. *)
Inductive file : Type :=
| Absent                       (* no such path *)
| Unreadable                   (* [open] or [read] raises [OSError] *)
| Content (text : string).

(** One [temp*_input] leaf of a hwmon directory and its sibling label. *)
Record temp_file : Type := {
  temp_input : file;
  temp_label : file
}.

(** One directory matched by [/sys/class/hwmon/hwmon*]. *)
Record hwmon_dir : Type := {
  name_file : file;
  temp_files : list temp_file
}.

(** What [subprocess.run] does. *)
Inductive process : Type :=
| Raises                       (* any exception, the command missing *)
| TimedOut                     (* [subprocess.TimeoutExpired] *)
| Completed (returncode : Z) (stdout : string).

Record host : Type := {
  read_path : string -> file;
  hwmon_dirs : list hwmon_dir;
  which_sensors : process;
  sensors : process;
  (** [psutil.cpu_percent]: the two calls of [get_cpu_load]; [None] when
      the call raises. *)
  cpu_percent_first : option Q;
  cpu_percent_second : option Q
}.

End Host.

(* ===================================================================== *)
(** ** Temperature and load acquisition *)
(* ===================================================================== *)

Module Sensors.
Import PyText PyNum Pattern Host.

Local Open Scope Q_scope.
Local Open Scope list_scope.

(** The exception classes the probes tell apart. *)
Inductive exn : Type := ValueError | OSError | NameError.

Definition amd_temp_paths : list string :=
  [ "/sys/devices/pci0000:00/0000:00:18.3/hwmon/hwmon0/temp1_input";
    "/sys/devices/pci0000:00/0000:00:18.3/hwmon/hwmon1/temp1_input";
    "/sys/devices/pci0000:00/0000:00:18.3/hwmon/hwmon2/temp1_input" ]%string.

(** [not temp_str or not temp_str.replace('.', '').isdigit()] *)
Definition not_numeric (temp_str : string) : bool :=
  is_empty temp_str || negb (isdigit (remove_char "." temp_str)).

(** [float(temp_str) / 1000.0] *)
Definition millidegrees (v : Q) : Q := Qred (v / 1000).

(** The body of the loop of [get_cpu_temp_from_amd_specific] for one path:
    [Some temp] when it returns, [None] when it goes on to the next path
    (the path is missing, reading raises, the text is not numeric, [float]
    raises [ValueError], or the value is out of range). *)
Definition amd_try (f : file) : option Q :=
  match f with
  | Absent => None
  | Unreadable => None
  | Content text =>
      let temp_str := strip text in
      if not_numeric temp_str then None
      else
        match py_float temp_str with
        | None => None
        | Some v =>
            let temp := millidegrees v in
            if between 0 temp 120 then Some temp else None
        end
  end.

(** [for temp_path in amd_temp_paths] *)
Fixpoint amd_scan (read : string -> file) (paths : list string) : option Q :=
  match paths with
  | [] => None
  | temp_path :: rest =>
      match amd_try (read temp_path) with
      | Some temp => Some temp
      | None => amd_scan read rest
      end
  end.

Definition get_cpu_temp_from_amd_specific (h : host) : option Q :=
  amd_scan (read_path h) amd_temp_paths.

(** The body of the innermost [try] of [get_cpu_temp_from_sysfs] for one
    leaf: the list of temperatures after it, and the exception it raises,
    if any.  [device_name] is [None] while the variable is unbound. *)
Definition read_temp_file (device_name : option string) (tf : temp_file)
    (temperatures : list Q) : list Q * option exn :=
  match temp_input tf with
  | Absent => (temperatures, Some OSError)
  | Unreadable => (temperatures, Some OSError)
  | Content text =>
      let temp_str := strip text in
      if not_numeric temp_str then (temperatures, None)
      else
        match py_float temp_str with
        | None => (temperatures, Some ValueError)
        | Some v =>
            let temp := millidegrees v in
            if between 0 temp 120 then
              let temperatures := temperatures ++ [temp] in
              match temp_label tf with
              | Unreadable => (temperatures, Some OSError)
              | Absent | Content _ =>
                  (* both [print]s format [device_name] *)
                  match device_name with
                  | None => (temperatures, Some NameError)
                  | Some _ => (temperatures, None)
                  end
              end
            else (temperatures, None)
        end
  end.

(** [except (ValueError, OSError, IOError)] *)
Definition caught_by_leaf (e : exn) : bool :=
  match e with ValueError | OSError => true | NameError => false end.

(** [except (OSError, IOError)] *)
Definition caught_by_device (e : exn) : bool :=
  match e with OSError => true | ValueError | NameError => false end.

(** [for temp_file in temp_files] *)
Fixpoint scan_temp_files (device_name : option string) (tfs : list temp_file)
    (temperatures : list Q) : list Q * option exn :=
  match tfs with
  | [] => (temperatures, None)
  | tf :: rest =>
      match read_temp_file device_name tf temperatures with
      | (temperatures, None) => scan_temp_files device_name rest temperatures
      | (temperatures, Some e) =>
          if caught_by_leaf e
          then scan_temp_files device_name rest temperatures
          else (temperatures, Some e)
      end
  end.

(** [for hwmon_dir in hwmon_dirs]; [device_name] keeps its value from one
    directory to the next. *)
Fixpoint scan_hwmon (dirs : list hwmon_dir) (device_name : option string)
    (temperatures : list Q) : list Q * option exn :=
  match dirs with
  | [] => (temperatures, None)
  | d :: rest =>
      match name_file d with
      | Unreadable => scan_hwmon rest device_name temperatures
      | nf =>
          let device_name :=
            match nf with
            | Content text => Some (strip text)
            | _ => device_name
            end in
          match scan_temp_files device_name (temp_files d) temperatures with
          | (temperatures, None) => scan_hwmon rest device_name temperatures
          | (temperatures, Some e) =>
              if caught_by_device e
              then scan_hwmon rest device_name temperatures
              else (temperatures, Some e)
          end
      end
  end.

Definition get_cpu_temp_from_sysfs (h : host) : option Q :=
  match hwmon_dirs h with
  | [] => None
  | dirs =>
      match scan_hwmon dirs None [] with
      | (_, Some _) => None                       (* [except Exception] *)
      | ([], None) => None
      | (t :: ts, None) => Some (max_list t ts)
      end
  end.

(** The line test of [get_cpu_temp_from_lm_sensors]: a CPU word in the
    lowered line, and the degree sign with a small c in the line itself. *)
Definition is_cpu_line (line : string) : bool :=
  let line_lower := lower line in
  (contains "core" line_lower || contains "cpu" line_lower
   || contains "package" line_lower || contains "tccd" line_lower
   || contains "tdie" line_lower)
  && contains deg_c line.

(** [for line in lines] *)
Fixpoint collect_temps (lines : list string) (temps : list Q) : list Q :=
  match lines with
  | [] => temps
  | line :: rest =>
      if is_cpu_line line then
        match search line with
        | None => collect_temps rest temps
        | Some group1 =>
            match py_float group1 with
            | None => collect_temps rest temps
            | Some temp =>
                if between 0 temp 120
                then collect_temps rest (temps ++ [temp])
                else collect_temps rest temps
            end
        end
      else collect_temps rest temps
  end.

(** [sum(temps) / len(temps)] *)
Definition mean (temps : list Q) : Q :=
  Qred (sum temps / inject_Z (Z.of_nat (List.length temps))).

Definition get_cpu_temp_from_lm_sensors (h : host) : option Q :=
  match which_sensors h with
  | Completed rc _ =>
      if negb (rc =? 0)%Z then None
      else
        match sensors h with
        | Completed rc output =>
            if (rc =? 0)%Z then
              match collect_temps (split_nl output) [] with
              | [] => None
              | temps => Some (mean temps)
              end
            else None
        | Raises | TimedOut => None
        end
  | Raises | TimedOut => None
  end.

(** [sum(int(x) for x in parts)]; [None] when an [int] raises. *)
Fixpoint sum_ints (parts : list string) : option Z :=
  match parts with
  | [] => Some 0%Z
  | x :: rest =>
      match py_int x with
      | None => None
      | Some v => option_map (Z.add v) (sum_ints rest)
      end
  end.

(** The first line that starts with ["cpu "]: the loop returns or breaks
    there. *)
Fixpoint first_cpu_line (lines : list string) : option string :=
  match lines with
  | [] => None
  | line :: rest =>
      if startswith "cpu " line then Some line else first_cpu_line rest
  end.

Definition get_cpu_load_from_proc (h : host) : Q :=
  match read_path h "/proc/stat" with
  | Content text =>
      match first_cpu_line (readlines text) with
      | Some line =>
          let parts := split_ws line in
          match sum_ints (tl parts), nth_error parts 4 with
          | Some total_time, Some idle =>
              match py_int idle with
              | Some idle_time =>
                  if (0 <? total_time)%Z then
                    let idle_percent :=
                      inject_Z idle_time / inject_Z total_time * 100 in
                    Qred (100 - idle_percent)
                  else 5
              | None => 5
              end
          | _, _ => 5
          end
      | None => 5
      end
  | Absent | Unreadable => 5
  end.

Definition get_cpu_load (h : host) : Q :=
  match cpu_percent_first h, cpu_percent_second h with
  | Some _, Some cpu_load =>
      let cpu_load :=
        if Qeq_bool cpu_load 0 then get_cpu_load_from_proc h else cpu_load in
      max2 (1 # 10) cpu_load
  | _, _ => 1
  end.

(** Log records: a level and what is said. *)
Inductive level : Type := DEBUG | INFO | WARNING | ERROR.

Inductive message : Type :=
| NoTemperature                       (* safe value 40 used *)
| Connecting | ConnectedTo | ConnectFailed
| SendRaised                          (* the write raised *)
| NoConnection
| Started
| Reading (cpu_temp cpu_load : Q)
| Esp32 (response : string)
| SendFailed (error_count max_errors : Z)
| TooManyErrors
| UserStop
| LoopError
| Stopped.

Definition logger : Type := list (level * message).

Definition or_else (temp : option Q) (probe : option Q) : option Q :=
  match temp with
  | None => probe
  | Some _ => temp
  end.

(** [get_cpu_temperature_linux(logger)]: the logger after the call and the
    pair returned. *)
Definition get_cpu_temperature_linux (h : host) (log : logger)
    : logger * (Q * Q) :=
  let cpu_load := get_cpu_load h in
  let temp := None in
  let temp := or_else temp (get_cpu_temp_from_amd_specific h) in
  let temp := or_else temp (get_cpu_temp_from_sysfs h) in
  let temp := or_else temp (get_cpu_temp_from_lm_sensors h) in
  match temp with
  | None => (log ++ [(WARNING, NoTemperature)], (round1 40, round1 cpu_load))
  | Some temp => (log, (round1 temp, round1 cpu_load))
  end.

(** The plausible range of a temperature. *)
Definition in_range (x : Q) : Prop := 0 <= x /\ x <= 120.

(** The four places where [get_cpu_temperature_linux] gives [temp] its
    value.  The function does not compute this: it is read off its control
    flow, to say which probe a returned temperature comes from. *)
Inductive SourceTag : Type := AmdSpecific | HwmonSysfs | LmSensors | SafeDefault.

Definition temperature_source (h : host) : SourceTag :=
  match get_cpu_temp_from_amd_specific h with
  | Some _ => AmdSpecific
  | None =>
      match get_cpu_temp_from_sysfs h with
      | Some _ => HwmonSysfs
      | None =>
          match get_cpu_temp_from_lm_sensors h with
          | Some _ => LmSensors
          | None => SafeDefault
          end
      end
  end.

End Sensors.

(* ===================================================================== *)
(** ** [class TemperatureMonitor] *)
(* ===================================================================== *)

Module Monitor.
Import PyText PyNum Host Sensors.

Local Open Scope Z_scope.
Local Open Scope list_scope.

(** The [serial.Serial] object, as far as the monitor looks at it. *)
Record serial : Type := { is_open : bool }.

(** What reaches the port: the bytes of a completed write, a [close]. *)
Inductive port_event : Type :=
| Written (data : list N)
| Closed.

(** The fields of [self], with the logger's records and the port's
    history. *)
Record monitor : Type := {
  serial_conn : option serial;
  running : bool;
  error_count : Z;
  max_errors : Z;
  daemon_mode : bool;
  log : logger;
  port : list port_event
}.

(** [TemperatureMonitor(com_port, logger, log_location, daemon_mode)] *)
Definition init (logger0 : logger) (daemon : bool) : monitor :=
  {| serial_conn := None;
     running := false;
     error_count := 0;
     max_errors := 10;
     daemon_mode := daemon;
     log := logger0;
     port := [] |}.

Definition set_serial_conn (c : option serial) (m : monitor) : monitor :=
  {| serial_conn := c; running := running m; error_count := error_count m;
     max_errors := max_errors m; daemon_mode := daemon_mode m;
     log := log m; port := port m |}.

Definition set_running (b : bool) (m : monitor) : monitor :=
  {| serial_conn := serial_conn m; running := b; error_count := error_count m;
     max_errors := max_errors m; daemon_mode := daemon_mode m;
     log := log m; port := port m |}.

Definition set_error_count (n : Z) (m : monitor) : monitor :=
  {| serial_conn := serial_conn m; running := running m; error_count := n;
     max_errors := max_errors m; daemon_mode := daemon_mode m;
     log := log m; port := port m |}.

Definition set_log (l : logger) (m : monitor) : monitor :=
  {| serial_conn := serial_conn m; running := running m;
     error_count := error_count m; max_errors := max_errors m;
     daemon_mode := daemon_mode m; log := l; port := port m |}.

Definition emit (lv : level) (msg : message) (m : monitor) : monitor :=
  set_log (log m ++ [(lv, msg)]) m.

Definition port_do (e : port_event) (m : monitor) : monitor :=
  {| serial_conn := serial_conn m; running := running m;
     error_count := error_count m; max_errors := max_errors m;
     daemon_mode := daemon_mode m; log := log m; port := port m ++ [e] |}.

(** [self.serial_conn and self.serial_conn.is_open] *)
Definition connected (m : monitor) : bool :=
  match serial_conn m with
  | Some c => is_open c
  | None => false
  end.

(** [connect]: [opens] tells whether [serial.Serial(...)] returns,
    [hello_ok] whether the write of the greeting does.  Bytes waiting on
    the line are read and dropped. *)
Definition connect (opens hello_ok : bool) (m : monitor) : monitor * bool :=
  let m := emit INFO Connecting m in
  if opens then
    let m := set_serial_conn (Some {| is_open := true |}) m in
    if hello_ok then
      let m := port_do (Written (encode ("HELLO" ++ nl)%string)) m in
      (emit INFO ConnectedTo m, true)
    else (emit ERROR ConnectFailed m, false)
  else (emit ERROR ConnectFailed m, false).

(** The text [send_data] hands to [write]. *)
Definition terminated (data_str : string) : string :=
  if endswith nl data_str then data_str else (data_str ++ nl)%string.

(** [send_data(data_str)]: [write_ok] tells whether [serial_conn.write]
    returns or raises. *)
Definition send_data (write_ok : bool) (data_str : string) (m : monitor)
    : monitor * bool :=
  if connected m then
    let data_str := terminated data_str in
    if write_ok then (port_do (Written (encode data_str)) m, true)
    else (emit ERROR SendRaised m, false)
  else (m, false).

(** [read_response]: [incoming] is the decoded line when bytes are waiting
    and can be read, [None] when nothing waits or reading raises. *)
Definition read_response (incoming : option string) (m : monitor)
    : option string :=
  match serial_conn m, incoming with
  | Some _, Some line =>
      let response := strip line in
      if is_empty response then None else Some response
  | _, _ => None
  end.

(** [stop]; [serial_conn.close()] marks the port closed. *)
Definition stop (m : monitor) : monitor :=
  let m := set_running false m in
  let m :=
    if connected m
    then port_do Closed (set_serial_conn (Some {| is_open := false |}) m)
    else m in
  emit INFO Stopped m.

(** What one pass through the loop body meets. *)
Inductive tick : Type :=
| Sample (h : host) (write_ok : bool) (incoming : option string)
| Interrupt            (* [KeyboardInterrupt], before the pass changes anything *)
| Fault                (* another [Exception], before the pass changes anything *)
| Signal.              (* the handler of [main]: [monitor.stop()], [sys.exit(0)] *)

(** A pass whose write raises. *)
Definition is_failed_send (t : tick) : bool :=
  match t with
  | Sample _ false _ => true
  | _ => false
  end.

(** The wire line before its terminator. *)
Definition wire_line (cpu_temp cpu_load : Q) : string :=
  ("TEMP:" ++ format_1f cpu_temp ++ "|LOAD:" ++ format_1f cpu_load)%string.

(** How a pass through the loop body ends. *)
Inductive flow : Type :=
| Continue             (* after [time.sleep], back to the loop test *)
| Break
| Exit.                (* [SystemExit] leaves the loop and [run] *)

(** One pass through the body of [while self.running].  The test
    [cpu_temp is None or cpu_load is None] is left out: both are numbers. *)
Definition pass (t : tick) (m : monitor) (success_counter : Z)
    : monitor * Z * flow :=
  match t with
  | Sample h write_ok incoming =>
      let '(lg, (cpu_temp, cpu_load)) := get_cpu_temperature_linux h (log m) in
      let m := set_log lg m in
      let data_str := wire_line cpu_temp cpu_load in
      let '(m, sent) := send_data write_ok data_str m in
      if sent then
        let m := set_error_count 0 m in
        let success_counter := success_counter + 1 in
        let m :=
          if negb (daemon_mode m) || (success_counter mod 10 =? 0)
          then emit INFO (Reading cpu_temp cpu_load) m
          else m in
        let m :=
          match read_response incoming m with
          | Some response =>
              if contains "ERROR" response || contains "no data" response
              then emit WARNING (Esp32 response) m
              else emit DEBUG (Esp32 response) m
          | None => m
          end in
        (m, success_counter, Continue)
      else
        let m := set_error_count (error_count m + 1) m in
        let m := emit WARNING (SendFailed (error_count m) (max_errors m)) m in
        if max_errors m <=? error_count m
        then (emit ERROR TooManyErrors m, success_counter, Break)
        else (m, success_counter, Continue)
  | Interrupt =>
      (set_running false (emit INFO UserStop m), success_counter, Break)
  | Fault =>
      let m := emit ERROR LoopError m in
      let m := set_error_count (error_count m + 1) m in
      if max_errors m <=? error_count m
      then (emit ERROR TooManyErrors m, success_counter, Break)
      else (m, success_counter, Continue)
  | Signal => (stop m, success_counter, Exit)
  end.

(** How [run] ends. *)
Inductive ending : Type :=
| Returned (value : bool)
| SystemExit
| Pending.             (* the loop waits for its next pass *)

(** [while self.running] with its [finally: self.stop()], over the passes
    the environment has in store: the monitor, how [run] ends, and the
    passes never started. *)
Fixpoint loop (ticks : list tick) (m : monitor) (success_counter : Z)
    : monitor * ending * list tick :=
  if negb (running m) then (stop m, Returned true, ticks)
  else
    match ticks with
    | [] => (m, Pending, [])
    | t :: rest =>
        match pass t m success_counter with
        | (m, success_counter, Continue) => loop rest m success_counter
        | (m, _, Break) => (stop m, Returned true, rest)
        | (m, _, Exit) => (stop m, SystemExit, rest)
        end
    end.

(** [run].  The warm-up call of [psutil.cpu_percent] before the loop has no
    effect on the monitor. *)
Definition run (ticks : list tick) (m : monitor)
    : monitor * ending * list tick :=
  if negb (connected m) then (emit ERROR NoConnection m, Returned false, ticks)
  else
    let m := set_running true m in
    let m := emit INFO Started m in
    loop ticks m 0.

End Monitor.

(* ===================================================================== *)
(** ** Hosts and monitors used in the statements below *)
(* ===================================================================== *)

Module Scenario.
Import PyText PyNum Pattern Host Sensors Monitor.

Local Open Scope string_scope.

Definition line (s : string) : string := s ++ nl.

Definition no_files : string -> file := fun _ => Absent.

Definition only (path text : string) : string -> file :=
  fun p => if String.eqb p path then Content text else Absent.

(** No sensor of any kind, no [/proc/stat], an idle [psutil]. *)
Definition bare_host : host :=
  {| read_path := no_files;
     hwmon_dirs := [];
     which_sensors := Completed 1 "";
     sensors := Raises;
     cpu_percent_first := Some 0%Q;
     cpu_percent_second := Some 0%Q |}.

Definition first_amd_path : string :=
  "/sys/devices/pci0000:00/0000:00:18.3/hwmon/hwmon0/temp1_input".

(** The first fixed path holds [text]; nothing else is there. *)
Definition amd_host (text : string) : host :=
  {| read_path := only first_amd_path text;
     hwmon_dirs := [];
     which_sensors := Completed 1 "";
     sensors := Raises;
     cpu_percent_first := Some 0%Q;
     cpu_percent_second := Some 0%Q |}.

Definition leaf (millidegrees : string) : temp_file :=
  {| temp_input := Content (line millidegrees); temp_label := Absent |}.

(** Hwmon directories only. *)
Definition hwmon_host (dirs : list hwmon_dir) : host :=
  {| read_path := no_files;
     hwmon_dirs := dirs;
     which_sensors := Completed 1 "";
     sensors := Raises;
     cpu_percent_first := Some 0%Q;
     cpu_percent_second := Some 0%Q |}.

(** One device without a [name] file, one leaf at 45.6 degrees. *)
Definition unnamed_device : list hwmon_dir :=
  [ {| name_file := Absent; temp_files := [leaf "45600"] |} ].

(** Three leaves at 12.3, 45.6 and 30.0 degrees over two devices, the
    first of which has no [name] file. *)
Definition three_readings_unnamed : list hwmon_dir :=
  [ {| name_file := Absent; temp_files := [leaf "12300"; leaf "45600"] |};
    {| name_file := Content (line "nvme"); temp_files := [leaf "30000"] |} ].

(** The same leaves, every device with its [name] file. *)
Definition three_readings_named : list hwmon_dir :=
  [ {| name_file := Content (line "k10temp");
       temp_files := [leaf "12300"; leaf "45600"] |};
    {| name_file := Content (line "nvme"); temp_files := [leaf "30000"] |} ].

(** [sensors] is installed and prints [output]. *)
Definition sensors_host (output : string) : host :=
  {| read_path := no_files;
     hwmon_dirs := [];
     which_sensors := Completed 0 (line "/usr/bin/sensors");
     sensors := Completed 0 output;
     cpu_percent_first := Some 0%Q;
     cpu_percent_second := Some 0%Q |}.

(** Two core lines as [sensors] prints them: a capital C after the degree
    sign. *)
Definition two_cores : string :=
  line ("Core 0:        +55.0" ++ deg_C ++ "  (high = +80.0" ++ deg_C ++ ")")
  ++ line ("Core 1:        +57.0" ++ deg_C ++ "  (high = +80.0" ++ deg_C ++ ")").

(** Two lines that carry the degree sign with a small c as well. *)
Definition two_cores_small_c : string :=
  line ("cpu " ++ deg_c ++ " 0:        +55.0" ++ deg_C)
  ++ line ("cpu " ++ deg_c ++ " 1:        +57.0" ++ deg_C).

(** [psutil] reports 0.0 and the first line of [/proc/stat] is [stat]. *)
Definition proc_host (stat : string) : host :=
  {| read_path := only "/proc/stat" (line stat ++ line "cpu0 25 0 25 450 0 0 0 0 0 0");
     hwmon_dirs := [];
     which_sensors := Completed 1 "";
     sensors := Raises;
     cpu_percent_first := Some 0%Q;
     cpu_percent_second := Some 0%Q |}.

(** idle = 900 out of a total of 1000. *)
Definition stat_900_of_1000 : string := "cpu  50 0 50 900 0 0 0 0 0 0".

(** A sampled host: 53.2 degrees on the first fixed path and a load of
    7.5 from [psutil]. *)
Definition sampled_host : host :=
  {| read_path := only first_amd_path (line "53200");
     hwmon_dirs := [];
     which_sensors := Completed 1 "";
     sensors := Raises;
     cpu_percent_first := Some 0%Q;
     cpu_percent_second := Some (15 # 2)%Q |}.

(** A monitor fresh from [__init__] and a [connect] that went well. *)
Definition connected_monitor : monitor :=
  fst (connect true true (init [] false)).

(** The same monitor inside [run], before the first pass. *)
Definition running_monitor : monitor := set_running true connected_monitor.

Definition failed_pass : tick := Sample bare_host false None.
Definition good_pass : tick := Sample sampled_host true None.

End Scenario.

(* ===================================================================== *)
(** ** Source check, port discovery and port choice *)
(* ===================================================================== *)

Module Discovery.
Import PyText PyNum Host Sensors.

Local Open Scope list_scope.


Definition common_ports : list string :=
  [ "/dev/ttyUSB0"; "/dev/ttyUSB1"; "/dev/ttyUSB2"; "/dev/ttyUSB3";
    "/dev/ttyACM0"; "/dev/ttyACM1"; "/dev/ttyACM2"; "/dev/ttyACM3" ]%string.

(** [port in ports] *)
Fixpoint in_ports (port : string) (ports : list string) : bool :=
  match ports with
  | [] => false
  | p :: rest => String.eqb p port || in_ports port rest
  end.

(** [for port, desc, hwid in sorted(detected_ports)] *)
Fixpoint add_detected (detected ports : list string) : list string :=
  match detected with
  | [] => ports
  | port :: rest =>
      add_detected rest (if in_ports port ports then ports else ports ++ [port])
  end.

(** [get_available_ports]: [path_exists] is [os.path.exists]; [detected]
    holds the device names the second loop gets to see, in the order
    [sorted] gives them (none when [comports] raises; an exception further
    on ends the loop and keeps what was added). *)
Definition get_available_ports (path_exists : string -> bool)
    (detected : list string) : list string :=
  add_detected detected (filter path_exists common_ports).

(** What [input] gives at the prompt of [main]. *)
Inductive prompt : Type :=
| Typed (text : string)
| CtrlC                          (* [KeyboardInterrupt] *)
| EndOfInput.                    (* [EOFError] *)

(** How the choice of the port in [main] ends. *)
Inductive selection : Type :=
| Use (port : string)            (* monitoring goes on with this port *)
| Return                         (* [main] returns *)
| Exit1                          (* [sys.exit(1)] *)
| Uncaught.                      (* the exception leaves [main] *)

(** The part of [main] that settles [args.port]: [arg] is the [--port]
    option, [ports] what [get_available_ports] returned, [answer] what the
    prompt gets, if it is shown. *)
Definition select_port (arg : option string) (ports : list string)
    (answer : prompt) : selection :=
  let given :=
    match arg with
    | Some p => negb (is_empty p)
    | None => false
    end in
  match arg, given with
  | Some p, true => Use p
  | _, _ =>
      match ports with
      | [] => Exit1
      | [p] => Use p
      | _ =>
          match answer with
          | CtrlC => Return
          | EndOfInput => Uncaught
          | Typed text =>
              let choice := strip text in
              if is_empty choice then Return
              else
                match py_int choice with
                | None => Return
                | Some n =>
                    let index := (n - 1)%Z in
                    if (0 <=? index)%Z && (index <? Z.of_nat (List.length ports))%Z
                    then
                      match nth_error ports (Z.to_nat index) with
                      | Some p => Use p
                      | None => Uncaught
                      end
                    else Return
                end
          end
      end
  end.

End Discovery.

(* ===================================================================== *)
(** ** Notions used to state what the code keeps *)
(* ===================================================================== *)

Module Observed.
Import PyText PyNum Host Sensors Monitor.

Local Open Scope list_scope.

Definition option_list {A} (o : option A) : list A :=
  match o with
  | Some x => [x]
  | None => []
  end.

(** The plausible readings of the leaves of a directory, in their order:
    none when reading its [name] file raises, for the directory is then
    passed over. *)
Definition hwmon_readings (d : hwmon_dir) : list Q :=
  match name_file d with
  | Unreadable => []
  | Absent | Content _ =>
      flat_map (fun tf => option_list (amd_try (temp_input tf))) (temp_files d)
  end.

(** The number of readings reported in a log. *)
Fixpoint count_readings (lg : logger) : Z :=
  match lg with
  | [] => 0
  | (INFO, Reading _ _) :: rest => 1 + count_readings rest
  | _ :: rest => count_readings rest
  end.


(** A pass that the loop counts against the error budget: the write
    raises, or the pass raises before it. *)
Definition counts_as_error (t : tick) : bool :=
  match t with
  | Sample _ false _ => true
  | Fault => true
  | _ => false
  end.

(** A counter of [/proc/stat]: digits, at least one. *)
Definition is_counter (x : string) : bool :=
  negb (is_empty x) && forall_chars is_decimal x.

(** A character that [encode] turns into one byte. *)
Definition plain (c : ascii) : bool := (code c <? 128)%N.

(** A pass whose write completes. *)
Definition is_good_send (t : tick) : bool :=
  match t with
  | Sample _ true _ => true
  | _ => false
  end.

End Observed.

(* ===================================================================== *)
(** ** Facts about rounding and maxima *)
(* ===================================================================== *)

Module NumFacts.
Import PyText PyNum.
Local Open Scope Q_scope.

Lemma between_spec (a x b : Q) : between a x b = true <-> a <= x /\ x <= b.
Proof.
  unfold between. rewrite andb_true_iff, !Qle_bool_iff. tauto.
Qed.

Lemma floor_bounds (q : Q) : inject_Z (Qfloor q) <= q /\ q < inject_Z (Qfloor q) + 1.
Proof.
  split; [apply Qfloor_le|].
  pose proof (Qlt_floor q) as H.
  rewrite inject_Z_plus in H. exact H.
Qed.

Lemma round_half_even_cases (q : Q) :
  round_half_even q = Qfloor q /\ q - inject_Z (Qfloor q) <= 1 # 2
  \/ round_half_even q = (Qfloor q + 1)%Z /\ 1 # 2 <= q - inject_Z (Qfloor q).
Proof.
  unfold round_half_even.
  destruct (Qle_bool (q - inject_Z (Qfloor q)) (1 # 2)) eqn:E1.
  - apply Qle_bool_iff in E1.
    destruct (Qle_bool (1 # 2) (q - inject_Z (Qfloor q))) eqn:E2.
    + apply Qle_bool_iff in E2. destruct (Z.even (Qfloor q)); [left | right]; split; auto.
    + left; split; auto.
  - right; split; auto.
    destruct (Qlt_le_dec (q - inject_Z (Qfloor q)) (1 # 2)) as [L | L]; auto.
    apply Qlt_le_weak, Qle_bool_iff in L. congruence.
Qed.


Lemma round_half_even_bounds (q : Q) (a b : Z) :
  inject_Z a <= q -> q <= inject_Z b -> (a <= round_half_even q <= b)%Z.
Proof.
  intros La Lb.
  destruct (floor_bounds q) as [L U].
  assert (Ha : (a <= Qfloor q)%Z).
  { rewrite <- (Qfloor_Z a). apply Qfloor_resp_le, La. }
  assert (Hb : (Qfloor q <= b)%Z).
  { rewrite <- (Qfloor_Z b). apply Qfloor_resp_le, Lb. }
  destruct (round_half_even_cases q) as [[-> H] | [-> H]]; [lia|].
  split; [lia|].
  assert (S : inject_Z (Qfloor q) < inject_Z b) by lra.
  rewrite <- Zlt_Qlt in S. lia.
Qed.

Lemma round_half_even_compat (x y : Q) : x == y -> round_half_even x = round_half_even y.
Proof.
  intros E. unfold round_half_even.
  rewrite (Qfloor_comp x y E).
  assert (R : x - inject_Z (Qfloor y) == y - inject_Z (Qfloor y)) by (rewrite E; reflexivity).
  assert (B1 : Qle_bool (x - inject_Z (Qfloor y)) (1 # 2)
               = Qle_bool (y - inject_Z (Qfloor y)) (1 # 2)).
  { apply eq_true_iff_eq. rewrite !Qle_bool_iff, R. tauto. }
  assert (B2 : Qle_bool (1 # 2) (x - inject_Z (Qfloor y))
               = Qle_bool (1 # 2) (y - inject_Z (Qfloor y))).
  { apply eq_true_iff_eq. rewrite !Qle_bool_iff, R. tauto. }
  rewrite B1, B2. reflexivity.
Qed.


Lemma round1_tenths (x : Q) : round1 x == inject_Z (round_half_even (x * 10)) / 10.
Proof. unfold round1. apply Qred_correct. Qed.


Lemma round1_bounds (x : Q) (a b : Z) :
  inject_Z a <= x * 10 -> x * 10 <= inject_Z b ->
  inject_Z a / 10 <= round1 x /\ round1 x <= inject_Z b / 10.
Proof.
  intros La Lb.
  destruct (round_half_even_bounds _ _ _ La Lb) as [Ha Hb].
  rewrite round1_tenths.
  rewrite Zle_Qle in Ha, Hb.
  set (k := inject_Z (round_half_even (x * 10))) in *.
  assert (D : forall z, z / 10 == z * (1 # 10)) by (intro; field).
  rewrite !D. split; lra.
Qed.

Lemma round1_range (x : Q) : 0 <= x -> x <= 120 -> 0 <= round1 x /\ round1 x <= 120.
Proof.
  intros L U.
  destruct (round1_bounds x 0 1200) as [A B].
  - change (inject_Z 0) with 0. lra.
  - change (inject_Z 1200) with 1200. lra.
  - split.
    + assert (E : inject_Z 0 / 10 == 0) by reflexivity. rewrite <- E. exact A.
    + assert (E : inject_Z 1200 / 10 == 120) by reflexivity. rewrite <- E. exact B.
Qed.

Lemma round1_floor (x : Q) : 1 # 10 <= x -> 1 # 10 <= round1 x.
Proof.
  intros L.
  pose proof (round_half_even_cases (x * 10)) as C.
  pose proof (floor_bounds (x * 10)) as [F1 F2].
  assert (K : (1 <= round_half_even (x * 10))%Z).
  { assert (Hf : (1 <= Qfloor (x * 10))%Z).
    { rewrite <- (Qfloor_Z 1). apply Qfloor_resp_le. change (inject_Z 1) with 1. lra. }
    destruct C as [[-> _] | [-> _]]; lia. }
  rewrite round1_tenths. rewrite Zle_Qle in K.
  set (k := inject_Z (round_half_even (x * 10))) in *.
  assert (D : k / 10 == k * (1 # 10)) by field.
  rewrite D. change (inject_Z 1) with 1 in K. lra.
Qed.

Lemma max2_cases (a b : Q) : (max2 a b = a /\ b <= a) \/ (max2 a b = b /\ a <= b).
Proof.
  unfold max2. destruct (Qle_bool b a) eqn:E.
  - left. split; auto. apply Qle_bool_iff, E.
  - right. split; auto.
    destruct (Qlt_le_dec a b) as [L | L]; [lra|].
    apply Qle_bool_iff in L. congruence.
Qed.

Lemma max_list_In (xs : list Q) : forall x, In (max_list x xs) (x :: xs).
Proof.
  unfold max_list.
  induction xs as [| y ys IH]; intros x; simpl; [auto|].
  destruct (max2_cases x y) as [[-> _] | [-> _]].
  - destruct (IH x) as [H | H]; [left; exact H | right; right; exact H].
  - destruct (IH y) as [H | H]; [right; left; exact H | right; right; exact H].
Qed.

Lemma max_list_ge_first (xs : list Q) : forall x, x <= max_list x xs.
Proof.
  unfold max_list.
  induction xs as [| y ys IH]; intros x; simpl; [lra|].
  destruct (max2_cases x y) as [[-> _] | [-> L]].
  - apply IH.
  - specialize (IH y). lra.
Qed.

Lemma max_list_upper (xs : list Q) : forall x y, In y (x :: xs) -> y <= max_list x xs.
Proof.
  unfold max_list.
  induction xs as [| z zs IH]; intros x y H.
  - simpl in *. destruct H as [-> | []]. lra.
  - simpl. destruct H as [-> | H].
    + pose proof (max_list_ge_first zs (max2 y z)) as G. unfold max_list in G.
      destruct (max2_cases y z) as [[E _] | [E L]]; rewrite E in *; lra.
    + destruct (max2_cases x z) as [[E L] | [E L]]; rewrite E.
      * destruct H as [-> | H].
        -- pose proof (max_list_ge_first zs x) as G. unfold max_list in G. lra.
        -- apply IH. right. exact H.
      * apply IH. exact H.
Qed.


Lemma max2_floor (x : Q) : 1 # 10 <= max2 (1 # 10) x.
Proof. destruct (max2_cases (1 # 10) x) as [[-> _] | [-> L]]; lra. Qed.

End NumFacts.

(* ===================================================================== *)
(** ** Facts about texts and decimal numerals *)
(* ===================================================================== *)

Module TextFacts.
Import PyText PyNum.

Lemma is_decimal_not_sign (c : ascii) :
  is_decimal c = true -> c <> "+"%char /\ c <> "-"%char /\ c <> "."%char /\ isspace c = false
                         /\ Ascii.eqb c newline = false.
Proof.
  destruct c as [[|] [|] [|] [|] [|] [|] [|] [|]]; vm_compute; intros H;
    try discriminate H; repeat split; discriminate.
Qed.

Lemma uint_all_decimal (u : Decimal.uint) :
  forall_chars is_decimal (NilEmpty.string_of_uint u) = true.
Proof. induction u; simpl; auto. Qed.

Lemma digits_val_uint_acc (u : Decimal.uint) : forall acc : positive,
  digits_val (NilEmpty.string_of_uint u) (Npos acc) = Npos (Pos.of_uint_acc u acc).
Proof.
  induction u; intros acc; cbn [NilEmpty.string_of_uint digits_val Pos.of_uint_acc];
    [reflexivity | ..];
    match goal with
    | |- digits_val _ ?a = N.pos (Pos.of_uint_acc _ ?b) =>
        replace a with (N.pos b) by (unfold digit_val, code; simpl N_of_ascii; lia)
    end; apply IHu.
Qed.

Lemma digits_val_uint (u : Decimal.uint) :
  digits_val (NilEmpty.string_of_uint u) 0 = N.of_uint u.
Proof.
  unfold N.of_uint.
  induction u; cbn [NilEmpty.string_of_uint digits_val Pos.of_uint];
    [reflexivity | exact IHu | ..];
    match goal with
    | |- digits_val _ ?a = N.pos (Pos.of_uint_acc _ ?b) =>
        change a with (N.pos b)
    end; apply digits_val_uint_acc.
Qed.

Lemma str_of_N_all_decimal (n : N) : forall_chars is_decimal (str_of_N n) = true.
Proof.
  unfold str_of_N, NilZero.string_of_uint.
  destruct (N.to_uint n) eqn:E; try reflexivity; rewrite <- E; apply uint_all_decimal.
Qed.

Lemma str_of_N_not_empty (n : N) : is_empty (str_of_N n) = false.
Proof.
  unfold str_of_N, NilZero.string_of_uint.
  destruct (N.to_uint n); reflexivity.
Qed.

Lemma str_of_N_value (n : N) : digits_val (str_of_N n) 0 = n.
Proof.
  unfold str_of_N, NilZero.string_of_uint.
  destruct (N.to_uint n) eqn:E;
    [ pose proof (DecimalN.Unsigned.of_to n) as H; rewrite E in H; rewrite <- H; reflexivity
    | rewrite <- E, digits_val_uint; apply DecimalN.Unsigned.of_to .. ].
Qed.


Lemma decimal_no_point (s : string) :
  forall_chars is_decimal s = true -> remove_char "." s = s /\ split_dot s = (s, None).
Proof.
  induction s as [| c s IH]; cbn [forall_chars remove_char split_dot]; [split; reflexivity|].
  intros H. apply andb_true_iff in H as [Hc Hs].
  destruct (IH Hs) as [R S].
  destruct (is_decimal_not_sign c Hc) as (_ & _ & P & _).
  apply Ascii.eqb_neq in P. rewrite P, R, S. split; reflexivity.
Qed.

Lemma py_float_unsigned_head (c : ascii) (s : string) :
  is_decimal c = true -> py_float (String c s) = float_unsigned (String c s).
Proof.
  intros Hc. destruct (is_decimal_not_sign c Hc) as (P & M & _).
  unfold py_float.
  destruct c as [[|] [|] [|] [|] [|] [|] [|] [|]]; try reflexivity; congruence.
Qed.


Lemma digits_val_app (a b : string) : forall acc,
  digits_val (a ++ b) acc = digits_val b (digits_val a acc).
Proof. induction a as [| c a IH]; intros acc; simpl; [reflexivity | apply IH]. Qed.

Lemma split_dot_app (a b : string) :
  forall_chars is_decimal a = true -> split_dot (a ++ String "." b) = (a, Some b).
Proof.
  induction a as [| c a IH]; cbn [forall_chars append split_dot]; [reflexivity|].
  intros H. apply andb_true_iff in H as [Hc Ha].
  destruct (is_decimal_not_sign c Hc) as (_ & _ & P & _).
  apply Ascii.eqb_neq in P. rewrite P, (IH Ha). reflexivity.
Qed.

Lemma below_ten (P : N -> bool) :
  forallb P (map N.of_nat (seq 0 10)) = true -> forall n, (n < 10)%N -> P n = true.
Proof.
  intros H n Hn. rewrite forallb_forall in H. apply H.
  rewrite <- (N2Nat.id n). apply in_map, in_seq. lia.
Qed.

Lemma single_digit_text (n : N) :
  (n < 10)%N -> str_of_N n = String (ascii_of_N (48 + n)) "".
Proof.
  intros Hn. apply String.eqb_eq.
  apply (below_ten (fun k => String.eqb (str_of_N k) (String (ascii_of_N (48 + k)) "")));
    [vm_compute; reflexivity | exact Hn].
Qed.

Lemma single_digit (n : N) : (n < 10)%N ->
  String.length (str_of_N n) = 1%nat /\ forall acc, digits_val (str_of_N n) acc = (acc * 10 + n)%N.
Proof.
  intros Hn. rewrite (single_digit_text n Hn). split; [reflexivity|].
  intros acc. cbn [digits_val]. unfold digit_val, code.
  rewrite N_ascii_embedding by lia. lia.
Qed.

Lemma append_assoc (a b c : string) : ((a ++ b) ++ c = a ++ (b ++ c))%string.
Proof. induction a as [| x a IH]; simpl; [reflexivity | rewrite IH; reflexivity]. Qed.

Lemma is_empty_app_r (a b : string) : is_empty b = false -> is_empty (a ++ b) = false.
Proof. destruct a; simpl; auto. Qed.

Lemma endswith_nl_app (a b : string) :
  is_empty b = false -> endswith nl (a ++ b) = endswith nl b.
Proof.
  intros NE. induction a as [| c a IH]; [reflexivity|].
  cbn [append endswith]. rewrite IH.
  replace (String.eqb (String c (a ++ b)) nl) with false; [reflexivity|].
  symmetry. unfold nl. cbn [String.eqb].
  destruct (Ascii.eqb c newline); [| reflexivity].
  pose proof (is_empty_app_r a b NE) as H. destruct (a ++ b); [discriminate H | reflexivity].
Qed.

Lemma endswith_nl_added (s : string) : endswith nl (s ++ nl) = true.
Proof.
  induction s as [| c s IH]; [reflexivity|].
  cbn [append endswith]. rewrite IH. apply orb_true_r.
Qed.

Lemma decimal_not_terminated (s : string) :
  forall_chars is_decimal s = true -> endswith nl s = false.
Proof.
  induction s as [| c s IH]; [reflexivity|].
  cbn [forall_chars endswith]. intros H. apply andb_true_iff in H as [Hc Hs].
  rewrite (IH Hs).
  destruct (is_decimal_not_sign c Hc) as (_ & _ & _ & _ & N).
  unfold nl. cbn [String.eqb]. rewrite N. reflexivity.
Qed.

End TextFacts.

(* ===================================================================== *)
(** ** Facts about the probes *)
(* ===================================================================== *)

Module SensorFacts.
Import PyText PyNum Pattern Host Sensors Scenario NumFacts TextFacts.
Local Open Scope Q_scope.

Lemma sum_from_bounds (l : list Q) : Forall in_range l -> forall a,
  a <= fold_left Qplus l a /\ fold_left Qplus l a <= a + 120 * inject_Z (Z.of_nat (List.length l)).
Proof.
  induction 1 as [| x l [X0 X1] _ IH]; intros a.
  - simpl. change (inject_Z 0) with 0. split; lra.
  - cbn [fold_left List.length]. destruct (IH (a + x)) as [A B].
    rewrite Nat2Z.inj_succ. unfold Z.succ. rewrite inject_Z_plus.
    change (inject_Z 1) with 1. split; lra.
Qed.

Lemma mean_in_range (l : list Q) : l <> [] -> Forall in_range l -> in_range (mean l).
Proof.
  intros NE F. unfold mean, in_range. rewrite Qred_correct.
  destruct (sum_from_bounds l F 0) as [A B]. fold (sum l) in A, B.
  set (n := inject_Z (Z.of_nat (List.length l))) in *.
  assert (P : 0 < n).
  { unfold n. change 0 with (inject_Z 0). rewrite <- Zlt_Qlt.
    destruct l; [congruence | simpl; lia]. }
  split.
  - apply Qle_shift_div_l; [exact P | lra].
  - apply Qle_shift_div_r; [exact P | lra].
Qed.

Lemma amd_try_in_range (f : file) (t : Q) : amd_try f = Some t -> in_range t.
Proof.
  destruct f as [| | text]; simpl; try discriminate.
  destruct (not_numeric (strip text)); try discriminate.
  destruct (py_float (strip text)) as [v |]; try discriminate.
  destruct (between 0 (millidegrees v) 120) eqn:B; try discriminate.
  intros [= <-]. apply between_spec, B.
Qed.

Lemma amd_scan_in_range (read : string -> file) (paths : list string) (t : Q) :
  amd_scan read paths = Some t -> in_range t.
Proof.
  induction paths as [| p rest IH]; simpl; [discriminate|].
  destruct (amd_try (read p)) as [t' |] eqn:E; [| exact IH].
  intros [= <-]. exact (amd_try_in_range _ _ E).
Qed.

Lemma Forall_snoc {A} (P : A -> Prop) (l : list A) (x : A) :
  Forall P l -> P x -> Forall P (l ++ [x]).
Proof. intros H Hx. apply Forall_app. split; [exact H | constructor; [exact Hx | constructor]]. Qed.

Lemma read_temp_file_in_range (dn : option string) (tf : temp_file) (ts : list Q) :
  Forall in_range ts -> Forall in_range (fst (read_temp_file dn tf ts)).
Proof.
  intros F. unfold read_temp_file.
  destruct (temp_input tf) as [| | text]; simpl; auto.
  destruct (not_numeric (strip text)); simpl; auto.
  destruct (py_float (strip text)) as [v |]; simpl; auto.
  destruct (between 0 (millidegrees v) 120) eqn:B; simpl; auto.
  assert (F' : Forall in_range (ts ++ [millidegrees v])).
  { apply Forall_snoc; [exact F | apply between_spec, B]. }
  destruct (temp_label tf); destruct dn; simpl; exact F'.
Qed.

Lemma scan_temp_files_in_range (dn : option string) (tfs : list temp_file) :
  forall ts, Forall in_range ts -> Forall in_range (fst (scan_temp_files dn tfs ts)).
Proof.
  induction tfs as [| tf rest IH]; intros ts F; simpl; [exact F|].
  pose proof (read_temp_file_in_range dn tf ts F) as R.
  destruct (read_temp_file dn tf ts) as [ts' [e |]]; simpl in R.
  - destruct (caught_by_leaf e); [apply IH, R | exact R].
  - apply IH, R.
Qed.

Lemma scan_hwmon_in_range (dirs : list hwmon_dir) :
  forall dn ts, Forall in_range ts -> Forall in_range (fst (scan_hwmon dirs dn ts)).
Proof.
  induction dirs as [| d rest IH]; intros dn ts F; simpl; [exact F|].
  destruct (name_file d) as [| | text].
  - pose proof (scan_temp_files_in_range dn (temp_files d) ts F) as R.
    destruct (scan_temp_files dn (temp_files d) ts) as [ts' [e |]]; simpl in R.
    + destruct (caught_by_device e); [apply IH, R | exact R].
    + apply IH, R.
  - apply IH, F.
  - pose proof (scan_temp_files_in_range (Some (strip text)) (temp_files d) ts F) as R.
    destruct (scan_temp_files (Some (strip text)) (temp_files d) ts) as [ts' [e |]]; simpl in R.
    + destruct (caught_by_device e); [apply IH, R | exact R].
    + apply IH, R.
Qed.

Lemma sysfs_in_range (h : host) (t : Q) : get_cpu_temp_from_sysfs h = Some t -> in_range t.
Proof.
  unfold get_cpu_temp_from_sysfs.
  destruct (hwmon_dirs h) as [| d ds]; [discriminate|].
  pose proof (scan_hwmon_in_range (d :: ds) None [] (Forall_nil _)) as R.
  destruct (scan_hwmon (d :: ds) None []) as [ts [e |]];
    [destruct ts; discriminate|].
  simpl in R. destruct ts as [| x xs]; [intros; discriminate|].
  intros [= <-].
  rewrite Forall_forall in R. apply R, max_list_In.
Qed.

Lemma collect_temps_in_range (lines : list string) :
  forall ts, Forall in_range ts -> Forall in_range (collect_temps lines ts).
Proof.
  induction lines as [| line rest IH]; intros ts F; simpl; [exact F|].
  destruct (is_cpu_line line); [| apply IH, F].
  destruct (search line) as [g |]; [| apply IH, F].
  destruct (py_float g) as [v |]; [| apply IH, F].
  destruct (between 0 v 120) eqn:B; [| apply IH, F].
  apply IH, Forall_snoc; [exact F | apply between_spec, B].
Qed.

Lemma lm_sensors_in_range (h : host) (t : Q) :
  get_cpu_temp_from_lm_sensors h = Some t -> in_range t.
Proof.
  unfold get_cpu_temp_from_lm_sensors.
  destruct (which_sensors h) as [| | rc out]; try discriminate.
  destruct (negb (rc =? 0)%Z); try discriminate.
  destruct (sensors h) as [| | rc' out']; try discriminate.
  destruct (rc' =? 0)%Z; try discriminate.
  pose proof (collect_temps_in_range (split_nl out') [] (Forall_nil _)) as R.
  destruct (collect_temps (split_nl out') []) as [| x xs] eqn:E; [discriminate|].
  intros [= <-]. apply mean_in_range; [discriminate | exact R].
Qed.

Lemma get_cpu_load_floor (h : host) : 1 # 10 <= get_cpu_load h.
Proof.
  unfold get_cpu_load.
  destruct (cpu_percent_first h); [| lra].
  destruct (cpu_percent_second h); [| lra].
  apply max2_floor.
Qed.





(** With no exception on the way, the probe returns the greatest of the
    temperatures it collected. *)
Lemma sysfs_returns_maximum (h : host) (ts : list Q) :
  hwmon_dirs h <> [] -> scan_hwmon (hwmon_dirs h) None [] = (ts, None) -> ts <> [] ->
  exists t, get_cpu_temp_from_sysfs h = Some t /\ In t ts /\ forall y, In y ts -> y <= t.
Proof.
  intros D S NE. unfold get_cpu_temp_from_sysfs.
  destruct (hwmon_dirs h) as [| d ds]; [congruence|].
  rewrite S. destruct ts as [| x xs]; [congruence|].
  exists (max_list x xs). split; [reflexivity|]. split.
  - apply max_list_In.
  - intros y Hy. apply max_list_upper, Hy.
Qed.

(** A line without the degree sign and a small c is never read. *)
Lemma no_small_c_no_cpu_line (l : string) : contains deg_c l = false -> is_cpu_line l = false.
Proof. intros H. unfold is_cpu_line. rewrite H. apply andb_false_r. Qed.

Lemma collect_temps_without_small_c (lines : list string) :
  Forall (fun l => contains deg_c l = false) lines ->
  forall ts, collect_temps lines ts = ts.
Proof.
  induction 1 as [| l ls Hl _ IH]; intros ts; simpl; [reflexivity|].
  rewrite (no_small_c_no_cpu_line l Hl). apply IH.
Qed.

End SensorFacts.

(* ===================================================================== *)
(** ** Facts about the wire line *)
(* ===================================================================== *)

Module WireFacts.
Import PyText PyNum Host Sensors Monitor Scenario NumFacts TextFacts.
Local Open Scope string_scope.

(** The [:.1f] text: a sign if negative, the digits of the whole part, a
    point, one digit. *)
Lemma format_1f_shape (x : Q) :
  exists (whole : string) (tenth : ascii),
    format_1f x = (if Qle_bool 0 x then "" else "-") ++ whole ++ "." ++ String tenth ""
    /\ is_empty whole = false
    /\ forall_chars is_decimal whole = true
    /\ is_decimal tenth = true.
Proof.
  unfold format_1f.
  set (k := Z.abs_N (round_half_even (x * 10))).
  exists (str_of_N (k / 10)).
  pose proof (str_of_N_all_decimal (k mod 10)) as D.
  pose proof (N.mod_upper_bound k 10 ltac:(discriminate)) as U.
  assert (L : exists c, str_of_N (k mod 10) = String c "")
    by (eexists; apply single_digit_text, U).
  destruct L as [c Ec]. exists c. rewrite Ec in *.
  repeat split.
  - apply str_of_N_not_empty.
  - apply str_of_N_all_decimal.
  - simpl in D. apply andb_true_iff in D as [Hc _]. exact Hc.
Qed.

Lemma format_1f_not_terminated (x : Q) : endswith nl (format_1f x) = false.
Proof.
  destruct (format_1f_shape x) as (whole & tenth & -> & _ & _ & T).
  rewrite endswith_nl_app by (apply is_empty_app_r; reflexivity).
  rewrite endswith_nl_app by reflexivity.
  rewrite endswith_nl_app by reflexivity.
  apply decimal_not_terminated. simpl. rewrite T. reflexivity.
Qed.

Lemma wire_line_not_terminated (t l : Q) : endswith nl (wire_line t l) = false.
Proof.
  unfold wire_line.
  pose proof (format_1f_not_terminated l) as E.
  assert (NE : is_empty (format_1f l) = false).
  { destruct (format_1f_shape l) as (w & d & -> & _ & _ & _).
    apply is_empty_app_r, is_empty_app_r. reflexivity. }
  rewrite endswith_nl_app by (apply is_empty_app_r, is_empty_app_r, NE).
  rewrite endswith_nl_app by (apply is_empty_app_r, NE).
  rewrite endswith_nl_app by exact NE.
  exact E.
Qed.

Lemma terminated_wire_line (t l : Q) :
  terminated (wire_line t l) = wire_line t l ++ nl.
Proof.
  unfold terminated. fold nl. rewrite wire_line_not_terminated. reflexivity.
Qed.

(** Reading back what [:.1f] prints gives the value rounded to a tenth. *)
Lemma format_1f_round_trip (x : Q) :
  (0 <= x)%Q -> py_float (format_1f x) = Some (round1 x).
Proof.
  intros P. unfold format_1f, round1.
  assert (B : Qle_bool 0 x = true) by (apply Qle_bool_iff, P). rewrite B.
  set (r := round_half_even (x * 10)).
  assert (R : (0 <= r)%Z).
  { unfold r. destruct (round_half_even_cases (x * 10)) as [[-> _] | [-> _]];
      assert (F : (0 <= Qfloor (x * 10))%Z)
        by (rewrite <- (Qfloor_Z 0); apply Qfloor_resp_le; change (inject_Z 0) with 0%Q; lra);
      lia. }
  set (k := Z.abs_N r).
  assert (K : Z.of_N k = r) by (unfold k; rewrite N2Z.inj_abs_N; lia).
  pose proof (str_of_N_all_decimal (k / 10)) as Da.
  pose proof (str_of_N_not_empty (k / 10)) as Na.
  pose proof (str_of_N_all_decimal (k mod 10)) as Dd.
  destruct (single_digit (k mod 10)) as [Ld Vd];
    [apply N.mod_upper_bound; discriminate|].
  cbn [append].
  destruct (str_of_N (k / 10)) as [| c a] eqn:Ea; [discriminate Na|].
  pose proof Da as Da'. cbn [forall_chars] in Da'. apply andb_true_iff in Da' as [Hc _].
  cbn [append]. rewrite (py_float_unsigned_head c _ Hc).
  unfold float_unsigned.
  change (String c (a ++ String "." (str_of_N (k mod 10))))
    with (String c a ++ String "." (str_of_N (k mod 10))).
  rewrite (split_dot_app _ _ Da), Da, Dd. cbn [andb is_empty negb].
  rewrite digits_val_app, <- Ea, str_of_N_value, Vd, Ld.
  replace (k / 10 * 10 + k mod 10)%N with k
    by (rewrite N.mul_comm; apply N.div_mod; discriminate).
  rewrite K. reflexivity.
Qed.

Lemma terminated_spec (s : string) :
  endswith nl (terminated s) = true
  /\ terminated (terminated s) = terminated s
  /\ terminated s = (if endswith nl s then s else s ++ nl)%string.
Proof.
  assert (E : endswith nl (terminated s) = true).
  { unfold terminated. fold nl. destruct (endswith nl s) eqn:E; [exact E|].
    apply endswith_nl_added. }
  split; [exact E|]. split; [| reflexivity].
  unfold terminated at 1. fold nl. rewrite E. reflexivity.
Qed.

End WireFacts.

(* ===================================================================== *)
(** ** Facts about the passes of the loop *)
(* ===================================================================== *)

Module LoopFacts.
Import PyText PyNum Host Sensors Monitor Scenario NumFacts TextFacts WireFacts.
Local Open Scope Z_scope.
Local Open Scope list_scope.

(** What a pass whose write raises leaves behind. *)
Lemma failed_pass_effect (h : host) (inc : option string) (m : monitor) (k : Z) :
  connected m = true ->
  exists m', pass (Sample h false inc) m k
             = (m', k, if max_errors m <=? error_count m + 1 then Break else Continue)
    /\ connected m' = true /\ running m' = running m
    /\ error_count m' = error_count m + 1 /\ max_errors m' = max_errors m
    /\ port m' = port m.
Proof.
  intros C. unfold pass.
  destruct (get_cpu_temperature_linux h (log m)) as [lg [t l]].
  unfold send_data.
  assert (C' : connected (set_log lg m) = true) by exact C.
  rewrite C'. cbn [emit set_log set_error_count error_count max_errors].
  destruct (max_errors m <=? error_count m + 1);
    eexists; (split; [reflexivity|]); repeat split; exact C.
Qed.

(** What a pass whose write completes leaves behind. *)
Lemma good_pass_effect (h : host) (inc : option string) (m : monitor) (k : Z) :
  connected m = true ->
  let reading := snd (get_cpu_temperature_linux h (log m)) in
  exists m', pass (Sample h true inc) m k = (m', k + 1, Continue)
    /\ error_count m' = 0
    /\ connected m' = true /\ running m' = running m
    /\ max_errors m' = max_errors m
    /\ port m' = port m ++ [Written (encode (wire_line (fst reading) (snd reading) ++ nl))].
Proof.
  intros C reading. subst reading. unfold pass.
  destruct (get_cpu_temperature_linux h (log m)) as [lg [t l]].
  unfold send_data.
  assert (C' : connected (set_log lg m) = true) by exact C.
  rewrite C', terminated_wire_line.
  cbn [snd fst].
  set (m1 := set_error_count 0 _).
  destruct (negb (daemon_mode m1) || ((k + 1) mod 10 =? 0));
    destruct (read_response inc _) as [resp |];
    try destruct (contains "ERROR" resp || contains "no data" resp)%bool;
    eexists; (split; [reflexivity|]); repeat split; exact C.
Qed.

(** A run of failed passes that uses up what is left of the error budget
    ends the loop at its last pass; the passes after it never start. *)
Lemma loop_exhausts_budget (fails : list tick) :
  forall (rest : list tick) (m : monitor) (k : Z),
    Forall (fun t => is_failed_send t = true) fails ->
    fails <> [] ->
    connected m = true -> running m = true ->
    error_count m + Z.of_nat (List.length fails) = max_errors m ->
    exists m', loop (fails ++ rest) m k = (m', Returned true, rest)
      /\ running m' = false /\ connected m' = false
      /\ error_count m' = max_errors m
      /\ port m' = port m ++ [Closed].
Proof.
  induction fails as [| t fails IH]; intros rest m k F NE C R E; [congruence|].
  inversion F as [| t' fs Ft Ffs]; subst.
  destruct t as [h [|] inc | | |]; try discriminate Ft.
  destruct (failed_pass_effect h inc m k C) as (m1 & P & C1 & R1 & E1 & M1 & P1).
  cbn [app loop]. rewrite R. cbn [negb]. rewrite P.
  cbn [List.length] in E. rewrite Nat2Z.inj_succ in E.
  destruct fails as [| t2 fails].
  - cbn [List.length] in E.
    replace (max_errors m <=? error_count m + 1) with true
      by (symmetry; apply Z.leb_le; lia).
    eexists. split; [reflexivity|].
    unfold stop. assert (Cs : connected (set_running false m1) = true) by exact C1.
    rewrite Cs. cbn. repeat split; [lia | congruence].
  - replace (max_errors m <=? error_count m + 1) with false
      by (symmetry; apply Z.leb_gt; cbn [List.length] in E; lia).
    destruct (IH rest m1 k Ffs) as (m' & L & Rm & Cm & Em & Pm);
      [discriminate | exact C1 | congruence | lia |].
    exists m'. split; [exact L|]. repeat split; congruence.
Qed.

(** A pass after which the loop goes on keeps the port open and the count
    within the budget. *)
Lemma pass_continue_keeps (t : tick) (m m' : monitor) (k k' : Z) :
  pass t m k = (m', k', Continue) ->
  connected m = true -> 0 <= error_count m < max_errors m ->
  connected m' = true /\ running m' = running m /\ max_errors m' = max_errors m
  /\ 0 <= error_count m' < max_errors m'.
Proof.
  intros P C B. destruct t as [h [|] inc | | |].
  - destruct (good_pass_effect h inc m k C) as (m2 & P2 & E & C2 & R2 & M2 & _).
    rewrite P2 in P. injection P as <- _. repeat split; try assumption; lia.
  - destruct (failed_pass_effect h inc m k C) as (m2 & P2 & C2 & R2 & E2 & M2 & _).
    rewrite P2 in P. injection P as <- _ F.
    destruct (max_errors m <=? error_count m + 1) eqn:L; [discriminate F|].
    apply Z.leb_gt in L. repeat split; try assumption; lia.
  - discriminate P.
  - cbn [pass emit set_log set_error_count error_count max_errors] in P.
    destruct (max_errors m <=? error_count m + 1) eqn:L; [discriminate P|].
    apply Z.leb_gt in L. injection P as <- _. cbn. repeat split; try assumption; lia.
  - discriminate P.
Qed.

(** While the loop waits for its next pass, what it has done does not
    depend on the passes still to come. *)
Lemma loop_pending_app (pre : list tick) :
  forall (m m1 : monitor) (k : Z),
    connected m = true -> running m = true -> 0 <= error_count m < max_errors m ->
    loop pre m k = (m1, Pending, []) ->
    connected m1 = true /\ running m1 = true /\ max_errors m1 = max_errors m
    /\ 0 <= error_count m1 < max_errors m1
    /\ exists k1, forall more, loop (pre ++ more) m k = loop more m1 k1.
Proof.
  induction pre as [| t pre IH]; intros m m1 k C R B L.
  - cbn [loop] in L. rewrite R in L. cbn [negb] in L. injection L as <-.
    repeat split; try assumption; try lia. exists k. reflexivity.
  - cbn [loop] in L. rewrite R in L. cbn [negb] in L.
    destruct (pass t m k) as [[m2 k2] [| |]] eqn:P; try discriminate L.
    destruct (pass_continue_keeps t m m2 k k2 P C B) as (C2 & R2 & M2 & B2).
    destruct (IH m2 m1 k2 C2 ltac:(congruence) B2 L) as (C1 & R1 & M1 & B1 & k1 & A).
    repeat split; try assumption; try lia; try congruence.
    exists k1. intros more. cbn [app loop]. rewrite R. cbn [negb]. rewrite P. apply A.
Qed.
Lemma Forall_firstn {A} (P : A -> Prop) (l : list A) :
  Forall P l -> forall n, Forall P (firstn n l).
Proof.
  induction 1 as [| x l Hx _ IH]; intros [| n]; cbn [firstn]; constructor; auto.
Qed.

End LoopFacts.

(* ===================================================================== *)
(** ** The properties of the design document *)
(* ===================================================================== *)

Import PyText PyNum Pattern Host Sensors Monitor Scenario.
Import NumFacts TextFacts SensorFacts WireFacts LoopFacts.

Section ProbeChain.

Local Open Scope Q_scope.
Local Open Scope list_scope.

(** C1, as the document states it, fails: [get_cpu_temperature_linux]
    returns a temperature and a load and nothing else.  No source tag can be
    read off what it returns: a host whose first fixed path holds 40000 and
    a host without any sensor get the same pair, the one from the fixed-path
    probe, the other from the default. *)
Lemma C1_result_carries_no_source_tag :
  ~ exists tag_of : Q * Q -> SourceTag,
      forall (h : host) (lg : logger),
        tag_of (snd (get_cpu_temperature_linux h lg)) = temperature_source h.
Proof.
  intros [tag_of H].
  pose proof (H (amd_host (line "40000")) []) as A.
  pose proof (H bare_host []) as B.
  vm_compute in A, B. congruence.
Qed.

(** C1, amended: for every host the temperature returned is within
    [0, 120]; when the three probes all give nothing the call returns 40.0
    and appends one warning to the log, and otherwise it logs nothing. *)
Theorem C1_temperature_in_range_default_40 (h : host) (lg : logger) :
  in_range (fst (snd (get_cpu_temperature_linux h lg)))
  /\ match get_cpu_temp_from_amd_specific h,
           get_cpu_temp_from_sysfs h,
           get_cpu_temp_from_lm_sensors h with
     | None, None, None =>
         get_cpu_temperature_linux h lg
         = (lg ++ [(WARNING, NoTemperature)], (40, round1 (get_cpu_load h)))
     | _, _, _ => fst (get_cpu_temperature_linux h lg) = lg
     end.
Proof.
  unfold get_cpu_temperature_linux, or_else.
  destruct (get_cpu_temp_from_amd_specific h) as [a |] eqn:Ea.
  { split; [| reflexivity]. simpl.
    destruct (amd_scan_in_range _ _ _ Ea). apply round1_range; assumption. }
  destruct (get_cpu_temp_from_sysfs h) as [s |] eqn:Es.
  { split; [| reflexivity]. simpl.
    destruct (sysfs_in_range _ _ Es). apply round1_range; assumption. }
  destruct (get_cpu_temp_from_lm_sensors h) as [l |] eqn:El.
  { split; [| reflexivity]. simpl.
    destruct (lm_sensors_in_range _ _ El). apply round1_range; assumption. }
  split; [| reflexivity].
  simpl. split; vm_compute; discriminate.
Qed.



(** C4 fails on the code: a device without a [name] file leaves
    [device_name] unbound, the diagnostic [print] after the first accepted
    reading raises [NameError], and the outermost handler makes the probe
    return [None], whatever was collected.  With every [name] file present
    the same readings give their maximum, 45.6. *)
Lemma C4_unnamed_device_loses_maximum :
  scan_hwmon unnamed_device None [] = ([228 # 5], Some NameError)
  /\ get_cpu_temp_from_sysfs (hwmon_host unnamed_device) = None
  /\ get_cpu_temp_from_sysfs (hwmon_host three_readings_unnamed) = None
  /\ get_cpu_temp_from_sysfs (hwmon_host three_readings_named) = Some (228 # 5).
Proof. repeat split; vm_compute; reflexivity. Qed.

(** C5: [get_cpu_load] is at least 0.1 on every host, hence never 0.0; when
    [psutil] reports 0.0 and [/proc/stat] counts idle = 900 out of 1000 it
    returns 10.0. *)
Theorem C5_load_never_zero (h : host) :
  1 # 10 <= get_cpu_load h
  /\ Qeq_bool (get_cpu_load h) 0 = false
  /\ cpu_percent_second (proc_host stat_900_of_1000) = Some 0
  /\ get_cpu_load_from_proc (proc_host stat_900_of_1000) = 10
  /\ get_cpu_load (proc_host stat_900_of_1000) = 10.
Proof.
  pose proof (get_cpu_load_floor h) as F.
  split; [exact F|]. split.
  { destruct (Qeq_bool (get_cpu_load h) 0) eqn:E; [| reflexivity].
    apply Qeq_bool_iff in E. lra. }
  repeat split; vm_compute; reflexivity.
Qed.

(** C6 fails on the code: the line test looks for the degree sign followed
    by a small c in the line as printed, where [sensors] prints a capital C.
    The two core lines at 55.0 and 57.0 degrees are dropped, although the
    pattern finds their values, and the probe returns [None]; lines that
    carry the small c as well give the mean, 56.0. *)
Lemma C6_capital_C_lines_are_dropped :
  map is_cpu_line (split_nl two_cores) = [false; false; false]
  /\ map search (split_nl two_cores) = [Some "+55.0"; Some "+57.0"; None]%string
  /\ get_cpu_temp_from_lm_sensors (sensors_host two_cores) = None
  /\ get_cpu_temp_from_lm_sensors (sensors_host two_cores_small_c) = Some 56.
Proof. repeat split; vm_compute; reflexivity. Qed.

End ProbeChain.

Section StreamingLoop.

Local Open Scope Z_scope.
Local Open Scope list_scope.

(** C2: with [max_errors = 10], wherever the loop stands, ten passes in a
    row whose send fails end [run]: the loop stops at the pass that brings
    the count to 10, which is the tenth when the count was 0 (at the start
    and after any successful send), the monitor is stopped and closed, and
    the passes that follow are never started, so no eleventh send is
    made. *)
Theorem C2_ten_failures_stop_the_loop
    (pre fails rest : list tick) (m m1 : monitor) :
  connected m = true -> error_count m = 0 -> max_errors m = 10 ->
  run pre m = (m1, Pending, []) ->
  List.length fails = 10%nat -> Forall (fun t => is_failed_send t = true) fails ->
  let n := Z.to_nat (10 - error_count m1) in
  (1 <= n <= 10)%nat
  /\ exists m', run (pre ++ fails ++ rest) m = (m', Returned true, skipn n fails ++ rest)
       /\ running m' = false /\ connected m' = false
       /\ error_count m' = 10
       /\ port m' = port m1 ++ [Closed].
Proof.
  intros C E M L Len F n. unfold run in *. rewrite C in *. cbn [negb] in *.
  set (m0 := emit INFO Started (set_running true m)) in *.
  destruct (loop_pending_app pre m0 m1 0) as (C1 & R1 & M1 & B1 & k1 & A);
    [exact C | reflexivity | cbn; lia | exact L |].
  assert (M1' : max_errors m1 = 10) by (rewrite M1; exact M).
  assert (Hn : (1 <= n <= 10)%nat) by (unfold n; lia).
  split; [exact Hn|].
  assert (S : fails ++ rest = firstn n fails ++ (skipn n fails ++ rest))
    by (rewrite app_assoc, firstn_skipn; reflexivity).
  destruct (loop_exhausts_budget (firstn n fails) (skipn n fails ++ rest) m1 k1)
    as (m' & H & R' & C' & E' & P').
  - apply Forall_firstn, F.
  - intros Z. apply (f_equal (@List.length tick)) in Z.
    rewrite firstn_length_le in Z by lia. simpl in Z. lia.
  - exact C1.
  - exact R1.
  - rewrite firstn_length_le by lia. unfold n. lia.
  - exists m'. split; [rewrite A, S; exact H|].
    repeat split; try assumption. congruence.
Qed.


(** C2 at a success and two failures followed by ten failed passes: the
    loop stops at the eighth of them. *)
Lemma C2_ten_failures_stop_the_loop_witness :
  exists m', run ([good_pass; failed_pass; failed_pass] ++ repeat failed_pass 10 ++ [good_pass])
                 connected_monitor
             = (m', Returned true, [failed_pass; failed_pass; good_pass])
    /\ running m' = false /\ connected m' = false
    /\ error_count m' = 10
    /\ port m' = port (fst (fst (run [good_pass; failed_pass; failed_pass] connected_monitor)))
                 ++ [Closed].
Proof.
  apply (C2_ten_failures_stop_the_loop
           [good_pass; failed_pass; failed_pass] (repeat failed_pass 10) [good_pass]
           connected_monitor
           (fst (fst (run [good_pass; failed_pass; failed_pass] connected_monitor))));
    try reflexivity.
  repeat constructor.
Defined.

(** C7: a pass whose send succeeds leaves [error_count] at 0; a failed pass
    followed by such a pass leaves the loop running with a count of 0. *)
Theorem C7_success_resets_error_count
    (h : host) (inc : option string) (m : monitor) (k : Z) :
  connected m = true ->
  error_count (fst (fst (pass (Sample h true inc) m k))) = 0
  /\ (forall h0 inc0, running m = true -> error_count m + 1 < max_errors m ->
        error_count (fst (fst (pass (Sample h0 false inc0) m k))) = error_count m + 1
        /\ exists m', loop [Sample h0 false inc0; Sample h true inc] m k = (m', Pending, [])
                      /\ error_count m' = 0).
Proof.
  intros C. split.
  { destruct (good_pass_effect h inc m k C) as (m' & -> & E & _). exact E. }
  intros h0 inc0 R B.
  destruct (failed_pass_effect h0 inc0 m k C) as (m1 & P1 & C1 & R1 & E1 & M1 & _).
  rewrite P1. split; [exact E1|].
  destruct (good_pass_effect h inc m1 k C1) as (m2 & P2 & E2 & _ & R2 & _).
  exists m2. split; [| exact E2].
  cbn [loop]. rewrite R. cbn [negb]. rewrite P1.
  replace (max_errors m <=? error_count m + 1) with false
    by (symmetry; apply Z.leb_gt; lia).
  rewrite R1, R. cbn [negb]. rewrite P2, R2, R1, R. reflexivity.
Qed.

(** C7 at a connected monitor: one failure, then one success. *)
Lemma C7_success_resets_error_count_witness :
  error_count (fst (fst (pass good_pass running_monitor 0))) = 0
  /\ error_count (fst (fst (pass failed_pass running_monitor 0))) = 1
  /\ exists m', loop [failed_pass; good_pass] running_monitor 0 = (m', Pending, [])
                /\ error_count m' = 0.
Proof.
  destruct (C7_success_resets_error_count sampled_host None running_monitor 0 eq_refl)
    as [A B].
  split; [exact A | exact (B bare_host None eq_refl eq_refl)].
Defined.

(** C8: the bytes written for a reading are those of [TEMP:], the
    temperature with one decimal, [|LOAD:], the load with one decimal, and
    one newline; [send_data] adds the newline only to a text that does not
    end with one; 53.2 degrees and 7.5 percent go out as
    [TEMP:53.2|LOAD:7.5] and a newline. *)
Theorem C8_wire_line_format (cpu_temp cpu_load : Q) (m : monitor) :
  connected m = true ->
  (* what goes to the port *)
  send_data true (wire_line cpu_temp cpu_load) m
  = (port_do (Written (encode ("TEMP:" ++ format_1f cpu_temp ++ "|LOAD:"
                               ++ format_1f cpu_load ++ nl)%string)) m, true)
  (* each number is printed with one decimal *)
  /\ (forall x : Q, exists (whole : string) (tenth : ascii),
        format_1f x
        = ((if Qle_bool 0 x then "" else "-") ++ whole ++ "." ++ String tenth "")%string
        /\ is_empty whole = false /\ forall_chars is_decimal whole = true
        /\ is_decimal tenth = true)
  /\ (forall x : Q, (0 <= x)%Q -> py_float (format_1f x) = Some (round1 x))
  (* the newline is added only when there is none *)
  /\ (forall s : string,
        endswith nl (terminated s) = true
        /\ terminated (terminated s) = terminated s
        /\ terminated s = (if endswith nl s then s else s ++ nl)%string)
  (* 53.2 degrees, 7.5 percent *)
  /\ (wire_line (532 # 10) (75 # 10) ++ nl)%string = line "TEMP:53.2|LOAD:7.5"
  /\ snd (get_cpu_temperature_linux sampled_host []) = ((266 # 5)%Q, (15 # 2)%Q)
  /\ port (fst (fst (pass good_pass m 0)))
     = port m ++ [Written (encode (line "TEMP:53.2|LOAD:7.5"))].
Proof.
  intros C. split.
  { unfold send_data. rewrite C, terminated_wire_line. unfold wire_line.
    rewrite !append_assoc. reflexivity. }
  split; [exact format_1f_shape|].
  split; [exact format_1f_round_trip|].
  split; [exact terminated_spec|].
  split; [reflexivity|]. split; [reflexivity|].
  destruct (good_pass_effect sampled_host None m 0 C) as (m' & P & _ & _ & _ & _ & Pt).
  unfold good_pass. rewrite P. cbn [fst]. rewrite Pt.
  assert (R : forall lg, snd (get_cpu_temperature_linux sampled_host lg)
                         = ((266 # 5)%Q, (15 # 2)%Q)).
  { intros lg. unfold get_cpu_temperature_linux.
    replace (get_cpu_temp_from_amd_specific sampled_host) with (Some (266 # 5)%Q)
      by (vm_compute; reflexivity).
    cbn [or_else snd]. vm_compute. reflexivity. }
  rewrite R. reflexivity.
Qed.

(** C8 at 53.2 degrees and 7.5 percent. *)
Lemma C8_wire_line_format_witness :
  send_data true (wire_line (532 # 10) (75 # 10)) connected_monitor
  = (port_do (Written (encode (line "TEMP:53.2|LOAD:7.5"))) connected_monitor, true).
Proof.
  apply (C8_wire_line_format (532 # 10) (75 # 10) connected_monitor eq_refl).
Defined.

(** C9: after [stop] the monitor is not running and its port is closed or
    absent; a second [stop] closes nothing and only adds its log record;
    the signal handler followed by the [finally] of [run] is such a pair of
    calls. *)
Theorem C9_stop_is_idempotent (m : monitor) :
  running (stop m) = false
  /\ connected (stop m) = false
  /\ port (stop m) = port m ++ (if connected m then [Closed] else [])
  /\ stop (stop m) = emit INFO Stopped (stop m)
  /\ running (stop (stop m)) = false
  /\ connected (stop (stop m)) = false
  /\ port (stop (stop m)) = port (stop m)
  /\ (forall rest k, running m = true ->
        loop (Signal :: rest) m k = (stop (stop m), SystemExit, rest)).
Proof.
  assert (C1 : connected (stop m) = false).
  { unfold stop.
    destruct (connected (set_running false m)) eqn:E; [reflexivity | exact E]. }
  assert (S2 : stop (stop m) = emit INFO Stopped (stop m)).
  { unfold stop at 1.
    assert (E : connected (set_running false (stop m)) = false) by exact C1.
    rewrite E.
    replace (set_running false (stop m)) with (stop m); [reflexivity|].
    unfold stop. destruct (connected (set_running false m)); reflexivity. }
  assert (R1 : running (stop m) = false).
  { unfold stop. destruct (connected (set_running false m)); reflexivity. }
  repeat split.
  - exact R1.
  - exact C1.
  - unfold stop. change (connected (set_running false m)) with (connected m).
    destruct (connected m); cbn; [reflexivity | symmetry; apply app_nil_r].
  - exact S2.
  - rewrite S2. exact R1.
  - rewrite S2. exact C1.
  - rewrite S2. reflexivity.
  - intros rest k R. cbn [loop]. rewrite R. reflexivity.
Qed.

(** C9 at a signal that arrives while the loop runs. *)
Lemma C9_stop_is_idempotent_witness :
  loop [Signal; good_pass] running_monitor 0
  = (stop (stop running_monitor), SystemExit, [good_pass]).
Proof.
  destruct (C9_stop_is_idempotent running_monitor) as (_ & _ & _ & _ & _ & _ & _ & L).
  exact (L [good_pass] 0 eq_refl).
Defined.

(** C10: [send_data] returns [True] exactly when the port is there, open,
    and the write completes, and only then does anything reach the port;
    without an open port it returns [False] and leaves the monitor as it
    was, and the loop counts the pass as a failed send. *)
Theorem C10_send_never_raises (write_ok : bool) (data_str : string) (m : monitor) :
  snd (send_data write_ok data_str m) = connected m && write_ok
  /\ port (fst (send_data write_ok data_str m))
     = (if connected m && write_ok
        then port m ++ [Written (encode (terminated data_str))]
        else port m)
  /\ (connected m = false ->
        send_data write_ok data_str m = (m, false)
        /\ forall h inc k,
             exists m', pass (Sample h write_ok inc) m k
                        = (m', k, if max_errors m <=? error_count m + 1
                                  then Break else Continue)
               /\ error_count m' = error_count m + 1
               /\ port m' = port m).
Proof.
  unfold send_data. destruct (connected m) eqn:C.
  - destruct write_ok; repeat split; discriminate.
  - repeat split. intros h inc k. unfold pass.
    destruct (get_cpu_temperature_linux h (log m)) as [lg [t l]].
    unfold send_data.
    assert (C' : connected (set_log lg m) = false) by exact C.
    rewrite C'. cbn [emit set_log set_error_count error_count max_errors].
    destruct (max_errors m <=? error_count m + 1);
      eexists; (split; [reflexivity|]); split; reflexivity.
Qed.

(** C10 at a monitor that was never connected. *)
Lemma C10_send_never_raises_witness :
  send_data true (wire_line 40 5) (init [] false) = (init [] false, false)
  /\ exists m', pass good_pass (init [] false) 0 = (m', 0, Continue)
       /\ error_count m' = 1 /\ port m' = [].
Proof.
  destruct (C10_send_never_raises true (wire_line 40 5) (init [] false))
    as (_ & _ & D).
  destruct (D eq_refl) as [A B].
  split; [exact A | exact (B sampled_host None 0)].
Defined.

End StreamingLoop.

(* ===================================================================== *)
(** ** Further facts about the probes *)
(* ===================================================================== *)

Module ProbeFacts.
Import PyText PyNum Pattern Host Sensors Scenario Discovery Observed.
Import NumFacts TextFacts SensorFacts.
Local Open Scope Q_scope.
Local Open Scope list_scope.

(** With [device_name] bound, a leaf adds its plausible reading, if it has
    one, and whatever it raises is caught by the handler of the leaf. *)
Lemma read_temp_file_named (name : string) (tf : temp_file) (ts : list Q) :
  fst (read_temp_file (Some name) tf ts) = ts ++ option_list (amd_try (temp_input tf))
  /\ match snd (read_temp_file (Some name) tf ts) with
     | Some e => caught_by_leaf e = true
     | None => True
     end.
Proof.
  unfold read_temp_file, amd_try.
  destruct (temp_input tf) as [| | text];
    [cbn; rewrite app_nil_r; split; reflexivity .. |].
  cbv zeta.
  destruct (not_numeric (strip text));
    [cbn; rewrite app_nil_r; split; [reflexivity | exact I] |].
  destruct (py_float (strip text)) as [v |];
    [| cbn; rewrite app_nil_r; split; reflexivity].
  destruct (between 0 (millidegrees v) 120);
    [| cbn; rewrite app_nil_r; split; [reflexivity | exact I]].
  destruct (temp_label tf); cbn; split; reflexivity || exact I.
Qed.

Lemma scan_temp_files_named (name : string) (tfs : list temp_file) :
  forall ts,
    scan_temp_files (Some name) tfs ts
    = (ts ++ flat_map (fun tf => option_list (amd_try (temp_input tf))) tfs, None).
Proof.
  induction tfs as [| tf rest IH]; intros ts; cbn [scan_temp_files flat_map].
  - rewrite app_nil_r. reflexivity.
  - destruct (read_temp_file_named name tf ts) as [F S].
    destruct (read_temp_file (Some name) tf ts) as [ts' [e |]]; cbn [fst snd] in F, S;
      subst ts'; rewrite ?S, IH, <- app_assoc; reflexivity.
Qed.

Lemma scan_hwmon_named (dirs : list hwmon_dir) :
  forall name ts,
    scan_hwmon dirs (Some name) ts = (ts ++ flat_map hwmon_readings dirs, None).
Proof.
  induction dirs as [| d rest IH]; intros name ts; cbn [scan_hwmon flat_map].
  - rewrite app_nil_r. reflexivity.
  - unfold hwmon_readings at 1.
    destruct (name_file d) as [| | text].
    + rewrite scan_temp_files_named, IH, <- app_assoc. reflexivity.
    + rewrite IH. reflexivity.
    + rewrite scan_temp_files_named, IH, <- app_assoc. reflexivity.
Qed.

(** Without a bound [device_name], the first leaf with a plausible reading
    and a label that can be read, or no label, ends the loop over the
    leaves with [NameError]. *)
Lemma scan_temp_files_unnamed (tfs : list temp_file) :
  forall ts,
    Exists (fun tf => amd_try (temp_input tf) <> None /\ temp_label tf <> Unreadable) tfs ->
    snd (scan_temp_files None tfs ts) = Some NameError.
Proof.
  induction tfs as [| tf rest IH]; intros ts E; [inversion E|].
  cbn [scan_temp_files].
  destruct (read_temp_file None tf ts) as [ts' [e |]] eqn:R.
  - destruct e; cbn [caught_by_leaf]; try reflexivity;
      apply IH; inversion E as [? ? [A L] | ? ? E']; subst; try exact E';
      exfalso; unfold read_temp_file, amd_try in *;
      destruct (temp_input tf) as [| | text]; try (apply A; reflexivity);
      destruct (not_numeric (strip text)); try (apply A; reflexivity);
      destruct (py_float (strip text)) as [v |]; try (apply A; reflexivity);
      destruct (between 0 (millidegrees v) 120); try (apply A; reflexivity);
      destruct (temp_label tf); try (apply L; reflexivity); discriminate R.
  - apply IH; inversion E as [? ? [A L] | ? ? E']; subst; try exact E'.
    exfalso; unfold read_temp_file, amd_try in *;
      destruct (temp_input tf) as [| | text]; try (apply A; reflexivity);
      destruct (not_numeric (strip text)); try (apply A; reflexivity);
      destruct (py_float (strip text)) as [v |]; try (apply A; reflexivity);
      destruct (between 0 (millidegrees v) 120); try (apply A; reflexivity);
      destruct (temp_label tf); try (apply L; reflexivity); discriminate R.
Qed.

End ProbeFacts.

Section MoreAboutProbes.
Import PyText PyNum Pattern Host Sensors Scenario Discovery Observed.
Import NumFacts TextFacts SensorFacts ProbeFacts.
Local Open Scope Q_scope.
Local Open Scope list_scope.

(** X1: when the [name] file of the first hwmon directory can be read, the
    probe returns the greatest of the plausible readings of all the
    directories whose [name] file does not raise, and [None] when there is
    none; a missing [name] file further on, a label that cannot be read or
    a leaf that is not numeric does not lose a reading. *)
Theorem sysfs_named_returns_greatest_reading
    (h : host) (d : hwmon_dir) (rest : list hwmon_dir) (text : string) :
  hwmon_dirs h = d :: rest -> name_file d = Content text ->
  get_cpu_temp_from_sysfs h
  = match flat_map hwmon_readings (d :: rest) with
    | [] => None
    | t :: ts => Some (max_list t ts)
    end
  /\ forall t, get_cpu_temp_from_sysfs h = Some t ->
       In t (flat_map hwmon_readings (d :: rest))
       /\ forall y, In y (flat_map hwmon_readings (d :: rest)) -> y <= t.
Proof.
  intros D N.
  assert (E : get_cpu_temp_from_sysfs h
              = match flat_map hwmon_readings (d :: rest) with
                | [] => None
                | t :: ts => Some (max_list t ts)
                end).
  { unfold get_cpu_temp_from_sysfs. rewrite D. cbn [scan_hwmon]. rewrite N.
    rewrite scan_temp_files_named, scan_hwmon_named.
    cbn [flat_map app]. unfold hwmon_readings at 2. rewrite N.
    destruct (flat_map _ (temp_files d) ++ flat_map hwmon_readings rest); reflexivity. }
  split; [exact E|].
  intros t. rewrite E.
  destruct (flat_map hwmon_readings (d :: rest)) as [| x xs]; [discriminate|].
  intros [= <-]. split; [apply max_list_In | intros y Hy; apply max_list_upper, Hy].
Qed.

(** X1 at two named devices with three leaves. *)
Lemma sysfs_named_returns_greatest_reading_witness :
  get_cpu_temp_from_sysfs (hwmon_host three_readings_named) = Some (228 # 5).
Proof.
  destruct (sysfs_named_returns_greatest_reading
              (hwmon_host three_readings_named)
              (hd {| name_file := Absent; temp_files := [] |} three_readings_named)
              (tl three_readings_named) (line "k10temp") eq_refl eq_refl) as [E _].
  exact E.
Defined.

(** X2: when the first hwmon directory has no [name] file and one of its
    leaves holds a plausible reading whose label is absent or readable, the
    probe returns [None], whatever the other directories hold. *)
Theorem sysfs_unnamed_first_device_gives_none
    (h : host) (d : hwmon_dir) (rest : list hwmon_dir) :
  hwmon_dirs h = d :: rest -> name_file d = Absent ->
  Exists (fun tf => amd_try (temp_input tf) <> None /\ temp_label tf <> Unreadable)
         (temp_files d) ->
  get_cpu_temp_from_sysfs h = None.
Proof.
  intros D N E. unfold get_cpu_temp_from_sysfs. rewrite D. cbn [scan_hwmon]. rewrite N.
  pose proof (scan_temp_files_unnamed (temp_files d) [] E) as S.
  destruct (scan_temp_files None (temp_files d) []) as [ts e]. cbn [snd] in S. subst e.
  cbn [caught_by_device]. destruct ts; reflexivity.
Qed.

(** X2 at one unnamed device with one leaf at 45.6 degrees. *)
Lemma sysfs_unnamed_first_device_gives_none_witness :
  get_cpu_temp_from_sysfs (hwmon_host unnamed_device) = None.
Proof.
  apply (sysfs_unnamed_first_device_gives_none (hwmon_host unnamed_device)
           (hd {| name_file := Absent; temp_files := [] |} unnamed_device) []
           eq_refl eq_refl).
  constructor. split; discriminate.
Defined.

End MoreAboutProbes.

(* ===================================================================== *)
(** ** Facts about the temperature pattern *)
(* ===================================================================== *)

Module PatternFacts.
Import PyText PyNum Pattern Host Sensors Scenario Discovery Observed.
Import NumFacts TextFacts SensorFacts.
Local Open Scope string_scope.
Local Open Scope list_scope.

(** What a greedy run consumes is made of characters of the class, and the
    subject is what it consumes followed by what it leaves. *)
Lemma star_spec (cls : ascii -> bool) (s : string) :
  forall t r, In (t, r) (star cls s) ->
    forall_chars cls t = true /\ s = (t ++ r)%string.
Proof.
  induction s as [| c s IH]; intros t r H; cbn [star] in H.
  - destruct H as [[= <- <-] | []]. split; reflexivity.
  - destruct (cls c) eqn:C.
    + apply in_app_or in H as [H | [[= <- <-] | []]]; [| split; reflexivity].
      unfold take_more in H. apply in_map_iff in H as [[t' r'] [[= <- <-] H]].
      destruct (IH _ _ H) as [F ->]. cbn [forall_chars append]. rewrite C, F.
      split; reflexivity.
    + destruct H as [[= <- <-] | []]. split; reflexivity.
Qed.

Lemma plus_spec (cls : ascii -> bool) (s : string) :
  forall t r, In (t, r) (plus cls s) ->
    forall_chars cls t = true /\ is_empty t = false /\ s = (t ++ r)%string.
Proof.
  intros t r H. unfold plus in H. apply filter_In in H as [H E].
  destruct (star_spec cls s t r H) as [F S].
  repeat split; try assumption. destruct (is_empty t); [discriminate E | reflexivity].
Qed.

Lemma opt_spec (cls : ascii -> bool) (s : string) :
  forall t r, In (t, r) (opt cls s) ->
    s = (t ++ r)%string /\ (t = "" \/ exists c, t = String c "" /\ cls c = true).
Proof.
  intros t r H. destruct s as [| c s]; cbn [opt] in H.
  - destruct H as [[= <- <-] | []]. split; [reflexivity | left; reflexivity].
  - destruct (cls c) eqn:C.
    + destruct H as [[= <- <-] | [[= <- <-] | []]].
      * split; [reflexivity | right; exists c; split; [reflexivity | exact C]].
      * split; [reflexivity | left; reflexivity].
    + destruct H as [[= <- <-] | []]. split; [reflexivity | left; reflexivity].
Qed.

Lemma forall_chars_app (p : ascii -> bool) (a b : string) :
  forall_chars p (a ++ b) = forall_chars p a && forall_chars p b.
Proof.
  induction a as [| c a IH]; cbn [append forall_chars]; [reflexivity|].
  rewrite IH. apply andb_assoc.
Qed.

(** Digits, then perhaps a point, then digits: [float] takes it. *)
Lemma float_unsigned_number (d1 dt d2 : string) :
  forall_chars is_decimal d1 = true -> is_empty d1 = false ->
  (dt = "" \/ exists c, dt = String c "" /\ is_dot c = true) ->
  forall_chars is_decimal d2 = true ->
  float_unsigned (d1 ++ dt ++ d2) <> None.
Proof.
  intros D1 N1 [-> | (c & -> & Hc)] D2; unfold float_unsigned.
  - cbn [append].
    assert (D : forall_chars is_decimal (d1 ++ d2) = true)
      by (rewrite forall_chars_app, D1, D2; reflexivity).
    destruct (decimal_no_point _ D) as [_ ->].
    rewrite D. destruct d1; [discriminate N1 | discriminate].
  - unfold is_dot in Hc. apply Ascii.eqb_eq in Hc. subst c. cbn [append].
    rewrite (split_dot_app _ _ D1), D1, D2, N1. discriminate.
Qed.

(** Every group the pattern captures is a number for [float]. *)
Lemma match_here_parses (s g : string) : In g (match_here s) -> py_float g <> None.
Proof.
  unfold match_here. intros H.
  apply in_flat_map in H as [[sg r1] [H0 H]].
  apply in_flat_map in H as [[d1 r2] [H1 H]].
  apply in_flat_map in H as [[dt r3] [H2 H]].
  apply in_flat_map in H as [[d2 r4] [H3 H]].
  apply in_flat_map in H as [[ws r5] [H4 H]].
  destruct (String.prefix deg_C r5); [| destruct H].
  destruct H as [<- | []].
  destruct (opt_spec _ _ _ _ H0) as [_ Sg].
  destruct (plus_spec _ _ _ _ H1) as (D1 & N1 & _).
  destruct (opt_spec _ _ _ _ H2) as [_ Dt].
  destruct (star_spec _ _ _ _ H3) as [D2 _].
  pose proof (float_unsigned_number d1 dt d2 D1 N1 Dt D2) as F.
  destruct Sg as [-> | (c & -> & Hc)].
  - cbn [append]. destruct d1 as [| c1 d1]; [discriminate N1|].
    cbn [forall_chars] in D1. apply andb_true_iff in D1 as [Hc1 _].
    cbn [append] in *. rewrite (py_float_unsigned_head c1 _ Hc1). exact F.
  - unfold is_sign in Hc. apply orb_true_iff in Hc as [Hc | Hc];
      apply Ascii.eqb_eq in Hc; subst c; cbn [append py_float]; [exact F|].
    destruct (float_unsigned (d1 ++ dt ++ d2)); [discriminate | exact F].
Qed.

(** A match starts with the capital-C marker somewhere ahead. *)
Lemma contains_app_r (n a b : string) : contains n b = true -> contains n (a ++ b) = true.
Proof.
  intros H. induction a as [| c a IH]; [exact H|].
  cbn [append contains]. rewrite IH. apply orb_true_r.
Qed.

Lemma prefix_contains (n s : string) : String.prefix n s = true -> contains n s = true.
Proof. intros H. destruct s; cbn [contains]; rewrite H; reflexivity. Qed.

Lemma match_here_needs_capital_C (s g : string) :
  In g (match_here s) -> contains deg_C s = true.
Proof.
  unfold match_here. intros H.
  apply in_flat_map in H as [[sg r1] [H0 H]].
  apply in_flat_map in H as [[d1 r2] [H1 H]].
  apply in_flat_map in H as [[dt r3] [H2 H]].
  apply in_flat_map in H as [[d2 r4] [H3 H]].
  apply in_flat_map in H as [[ws r5] [H4 H]].
  destruct (String.prefix deg_C r5) eqn:P; [| destruct H].
  destruct (opt_spec _ _ _ _ H0) as [-> _].
  destruct (plus_spec _ _ _ _ H1) as (_ & _ & ->).
  destruct (opt_spec _ _ _ _ H2) as [-> _].
  destruct (star_spec _ _ _ _ H3) as [_ ->].
  destruct (star_spec _ _ _ _ H4) as [_ ->].
  do 5 apply contains_app_r. apply prefix_contains, P.
Qed.

Lemma search_spec (s g : string) :
  search s = Some g ->
  py_float g <> None /\ contains deg_C s = true.
Proof.
  induction s as [| c s IH]; cbn [search].
  - destruct (match_here "") as [| g0 l] eqn:M; [discriminate|].
    intros [= <-].
    assert (I : In g0 (match_here "")) by (rewrite M; left; reflexivity).
    split; [exact (match_here_parses _ _ I) | exact (match_here_needs_capital_C _ _ I)].
  - destruct (match_here (String c s)) as [| g0 l] eqn:M.
    + intros H. destruct (IH H) as [P C]. split; [exact P|].
      cbn [contains]. rewrite C. apply orb_true_r.
    + intros [= <-].
      assert (I : In g0 (match_here (String c s))) by (rewrite M; left; reflexivity).
      split; [exact (match_here_parses _ _ I) | exact (match_here_needs_capital_C _ _ I)].
Qed.

(** A line adds a temperature only if it carries the degree sign with a
    small c and the degree sign with a capital C. *)
Lemma collect_temps_needs_both (lines : list string) :
  Forall (fun l => contains deg_c l && contains deg_C l = false) lines ->
  forall ts, collect_temps lines ts = ts.
Proof.
  induction 1 as [| l ls Hl _ IH]; intros ts; cbn [collect_temps]; [reflexivity|].
  destruct (is_cpu_line l) eqn:L; [| apply IH].
  destruct (search l) as [g |] eqn:S; [| apply IH].
  exfalso. destruct (search_spec l g S) as [_ C].
  unfold is_cpu_line in L. apply andb_true_iff in L as [_ L].
  rewrite L, C in Hl. discriminate Hl.
Qed.

End PatternFacts.

Section MoreAboutSensors.
Import PyText PyNum Pattern Host Sensors Scenario Discovery Observed.
Import NumFacts TextFacts SensorFacts PatternFacts.
Local Open Scope Q_scope.
Local Open Scope list_scope.

(** X3: whatever the temperature pattern captures in a line is a number
    that [float] accepts, so the [ValueError] handler of the sensor-daemon
    probe never drops a line; and the pattern finds nothing in a line
    without the degree sign followed by a capital C. *)
Theorem lm_sensors_group_is_a_number (line0 group1 : string) :
  search line0 = Some group1 ->
  (exists temp, py_float group1 = Some temp) /\ contains deg_C line0 = true.
Proof.
  intros S. destruct (search_spec line0 group1 S) as [P C]. split; [| exact C].
  destruct (py_float group1) as [v |]; [exists v; reflexivity | congruence].
Qed.

(** X3 at a core line of [sensors]. *)
Lemma lm_sensors_group_is_a_number_witness :
  (exists temp, py_float "+55.0" = Some temp)
  /\ contains deg_C ("Core 0:        +55.0" ++ deg_C ++ "  (high = +80.0" ++ deg_C ++ ")")%string
     = true.
Proof.
  apply (lm_sensors_group_is_a_number
           ("Core 0:        +55.0" ++ deg_C ++ "  (high = +80.0" ++ deg_C ++ ")")%string
           "+55.0" eq_refl).
Defined.

(** X4: the sensor-daemon probe reads a temperature only from a line that
    carries both the degree sign followed by a small c and the degree sign
    followed by a capital C; when no line of the output of [sensors] has
    both, it returns [None]. *)
Theorem lm_sensors_needs_both_markers (h : host) (rc : Z) (output : string) :
  sensors h = Completed rc output ->
  Forall (fun l => contains deg_c l && contains deg_C l = false) (split_nl output) ->
  get_cpu_temp_from_lm_sensors h = None.
Proof.
  intros S F. unfold get_cpu_temp_from_lm_sensors. rewrite S.
  destruct (which_sensors h) as [| | rc0 out0]; try reflexivity.
  destruct (negb (rc0 =? 0)%Z); [reflexivity|].
  destruct (rc =? 0)%Z; [| reflexivity].
  rewrite (collect_temps_needs_both _ F). reflexivity.
Qed.

(** X4 at the two core lines that [sensors] prints. *)
Lemma lm_sensors_needs_both_markers_witness :
  get_cpu_temp_from_lm_sensors (sensors_host two_cores) = None.
Proof.
  apply (lm_sensors_needs_both_markers (sensors_host two_cores) 0 two_cores eq_refl).
  repeat constructor.
Defined.

End MoreAboutSensors.

(* ===================================================================== *)
(** ** Facts about the load and the reading *)
(* ===================================================================== *)

Module ReadingFacts.
Import PyText PyNum Pattern Host Sensors Scenario Discovery Observed.
Import NumFacts TextFacts SensorFacts WireFacts.
Local Open Scope Q_scope.
Local Open Scope list_scope.

(** A counter written in digits reads as an integer that is not negative. *)
Lemma py_int_counter (x : string) (v : Z) :
  is_counter x = true -> py_int x = Some v -> (0 <= v)%Z.
Proof.
  unfold is_counter. intros H P. apply andb_true_iff in H as [N D].
  destruct x as [| c x]; [discriminate N|].
  cbn [forall_chars] in D. apply andb_true_iff in D as [Hc _].
  destruct (is_decimal_not_sign c Hc) as (Pl & Mi & _).
  unfold py_int in P.
  assert (E : option_map Z.of_N (int_digits (String c x) 0 false) = Some v).
  { destruct c as [[|] [|] [|] [|] [|] [|] [|] [|]]; try exact P; congruence. }
  destruct (int_digits (String c x) 0 false) as [n |]; [| discriminate E].
  injection E as <-. lia.
Qed.

Lemma sum_ints_counters (l : list string) :
  Forall (fun x => is_counter x = true) l -> forall total, sum_ints l = Some total ->
  (0 <= total)%Z
  /\ forall p idle, In p l -> py_int p = Some idle -> (0 <= idle <= total)%Z.
Proof.
  induction 1 as [| x l Hx _ IH]; intros total S; cbn [sum_ints] in S.
  - injection S as <-. split; [lia | intros p idle []].
  - destruct (py_int x) as [v |] eqn:Px; [| discriminate S].
    destruct (sum_ints l) as [rest |]; [| discriminate S].
    injection S as <-.
    pose proof (py_int_counter x v Hx Px) as V.
    destruct (IH rest eq_refl) as [R I].
    split; [lia|]. intros p idle [-> | Hp] Pp.
    + rewrite Px in Pp. injection Pp as <-. lia.
    + specialize (I p idle Hp Pp). lia.
Qed.

Lemma busy_share_in_percent (idle total : Z) :
  (0 <= idle <= total)%Z -> (0 < total)%Z ->
  0 <= Qred (100 - inject_Z idle / inject_Z total * 100)
  /\ Qred (100 - inject_Z idle / inject_Z total * 100) <= 100.
Proof.
  intros [I0 I1] T. rewrite Qred_correct.
  assert (Tq : 0 < inject_Z total) by (change 0 with (inject_Z 0); rewrite <- Zlt_Qlt; exact T).
  assert (A : 0 <= inject_Z idle / inject_Z total).
  { apply Qle_shift_div_l; [exact Tq|]. rewrite Qmult_0_l.
    change 0 with (inject_Z 0). rewrite <- Zle_Qle. exact I0. }
  assert (B : inject_Z idle / inject_Z total <= 1).
  { apply Qle_shift_div_r; [exact Tq|]. rewrite Qmult_1_l.
    rewrite <- Zle_Qle. exact I1. }
  split; lra.
Qed.

Lemma round_half_even_of_Z (k : Z) : round_half_even (inject_Z k) = k.
Proof.
  unfold round_half_even. rewrite Qfloor_Z.
  assert (E : inject_Z k - inject_Z k == 0) by ring.
  assert (B1 : Qle_bool (inject_Z k - inject_Z k) (1 # 2) = true)
    by (apply Qle_bool_iff; rewrite E; discriminate).
  assert (B2 : Qle_bool (1 # 2) (inject_Z k - inject_Z k) = false).
  { destruct (Qle_bool (1 # 2) (inject_Z k - inject_Z k)) eqn:B; [| reflexivity].
    apply Qle_bool_iff in B. rewrite E in B. exfalso. apply B. reflexivity. }
  rewrite B1, B2. reflexivity.
Qed.

(** A value rounded to a tenth is not changed by rounding it again. *)
Lemma round1_idempotent (x : Q) : round1 (round1 x) = round1 x.
Proof.
  unfold round1 at 1 3.
  rewrite (round_half_even_compat (round1 x * 10)
             (inject_Z (round_half_even (x * 10)))).
  - rewrite round_half_even_of_Z. reflexivity.
  - rewrite round1_tenths. field.
Qed.

Lemma round1_nonneg (x : Q) : 0 <= x -> 0 <= round1 x.
Proof.
  intros P. rewrite round1_tenths.
  assert (K : (0 <= round_half_even (x * 10))%Z).
  { assert (F : (0 <= Qfloor (x * 10))%Z)
      by (rewrite <- (Qfloor_Z 0); apply Qfloor_resp_le; change (inject_Z 0) with 0; lra).
    destruct (round_half_even_cases (x * 10)) as [[-> _] | [-> _]]; lia. }
  rewrite Zle_Qle in K. change (inject_Z 0) with 0 in K.
  set (k := inject_Z (round_half_even (x * 10))) in *.
  assert (D : k / 10 == k * (1 # 10)) by field.
  rewrite D. lra.
Qed.

(** The temperature of the pair returned is plausible, the load at least
    0.1. *)
Lemma reading_bounds (h : host) (lg : logger) :
  in_range (fst (snd (get_cpu_temperature_linux h lg)))
  /\ 1 # 10 <= snd (snd (get_cpu_temperature_linux h lg)).
Proof.
  unfold get_cpu_temperature_linux, or_else.
  assert (L : 1 # 10 <= round1 (get_cpu_load h))
    by (apply round1_floor, get_cpu_load_floor).
  destruct (get_cpu_temp_from_amd_specific h) as [a |] eqn:Ea.
  { cbn [fst snd]. split; [| exact L].
    destruct (amd_scan_in_range _ _ _ Ea). apply round1_range; assumption. }
  destruct (get_cpu_temp_from_sysfs h) as [s |] eqn:Es.
  { cbn [fst snd]. split; [| exact L].
    destruct (sysfs_in_range _ _ Es). apply round1_range; assumption. }
  destruct (get_cpu_temp_from_lm_sensors h) as [l |] eqn:El.
  { cbn [fst snd]. split; [| exact L].
    destruct (lm_sensors_in_range _ _ El). apply round1_range; assumption. }
  cbn [fst snd]. split; [| exact L]. split; vm_compute; discriminate.
Qed.

(** Both numbers of the pair returned are rounded to a tenth. *)
Lemma reading_is_rounded (h : host) (lg : logger) :
  round1 (fst (snd (get_cpu_temperature_linux h lg)))
  = fst (snd (get_cpu_temperature_linux h lg))
  /\ round1 (snd (snd (get_cpu_temperature_linux h lg)))
     = snd (snd (get_cpu_temperature_linux h lg)).
Proof.
  unfold get_cpu_temperature_linux.
  destruct (or_else _ _); cbn [fst snd]; split; apply round1_idempotent.
Qed.

(** The log after the call: as before, or with one warning more. *)
Lemma reading_log (h : host) (lg : logger) :
  fst (get_cpu_temperature_linux h lg) = lg
  \/ fst (get_cpu_temperature_linux h lg) = lg ++ [(WARNING, NoTemperature)].
Proof.
  unfold get_cpu_temperature_linux.
  destruct (or_else _ _); cbn [fst]; [left | right]; reflexivity.
Qed.

End ReadingFacts.

Section MoreAboutReadings.
Import PyText PyNum Pattern Host Sensors Monitor Scenario Discovery Observed.
Import NumFacts TextFacts SensorFacts WireFacts ReadingFacts.
Local Open Scope Q_scope.
Local Open Scope list_scope.

(** X5: when the counters of the first [cpu ] line of [/proc/stat] are
    written in digits, [get_cpu_load_from_proc] returns a percentage between
    0 and 100 (the default 5.0 when the line is too short or sums to 0). *)
Theorem proc_load_is_a_percentage (h : host) (text line0 : string) :
  read_path h "/proc/stat" = Content text ->
  first_cpu_line (readlines text) = Some line0 ->
  forallb is_counter (tl (split_ws line0)) = true ->
  0 <= get_cpu_load_from_proc h /\ get_cpu_load_from_proc h <= 100.
Proof.
  intros R L F. rewrite forallb_forall in F. rewrite <- Forall_forall in F.
  unfold get_cpu_load_from_proc. rewrite R, L.
  destruct (sum_ints (tl (split_ws line0))) as [total |] eqn:S; [| split; lra].
  destruct (nth_error (split_ws line0) 4) as [p |] eqn:N; [| split; lra].
  destruct (py_int p) as [idle |] eqn:P; [| split; lra].
  destruct (0 <? total)%Z eqn:T; [| split; lra].
  apply Z.ltb_lt in T.
  destruct (sum_ints_counters _ F total S) as [_ I].
  assert (Hp : In p (tl (split_ws line0))).
  { destruct (split_ws line0) as [| x parts]; [discriminate N|].
    cbn [tl]. exact (nth_error_In parts 3 N). }
  apply busy_share_in_percent; [exact (I p idle Hp P) | exact T].
Qed.

(** X5 at idle = 900 out of 1000. *)
Lemma proc_load_is_a_percentage_witness :
  0 <= get_cpu_load_from_proc (proc_host stat_900_of_1000)
  /\ get_cpu_load_from_proc (proc_host stat_900_of_1000) <= 100.
Proof.
  apply (proc_load_is_a_percentage (proc_host stat_900_of_1000)
           (line stat_900_of_1000 ++ line "cpu0 25 0 25 450 0 0 0 0 0 0")%string
           (line stat_900_of_1000) eq_refl eq_refl eq_refl).
Defined.

(** X6: the two numbers [get_cpu_temperature_linux] returns are tenths, and
    reading the two fields of the wire line back as decimals gives exactly
    these numbers: formatting with one decimal loses nothing. *)
Theorem reading_survives_the_wire (h : host) (lg : logger) :
  let cpu_temp := fst (snd (get_cpu_temperature_linux h lg)) in
  let cpu_load := snd (snd (get_cpu_temperature_linux h lg)) in
  py_float (format_1f cpu_temp) = Some cpu_temp
  /\ py_float (format_1f cpu_load) = Some cpu_load
  /\ (exists k : Z, cpu_temp == inject_Z k / 10)
  /\ (exists k : Z, cpu_load == inject_Z k / 10).
Proof.
  intros cpu_temp cpu_load.
  destruct (reading_bounds h lg) as [[T0 T1] L].
  destruct (reading_is_rounded h lg) as [RT RL].
  fold cpu_temp in T0, T1, RT. fold cpu_load in L, RL.
  repeat split.
  - rewrite format_1f_round_trip by exact T0. rewrite RT. reflexivity.
  - rewrite format_1f_round_trip by lra. rewrite RL. reflexivity.
  - exists (round_half_even (cpu_temp * 10)). rewrite <- RT at 1. apply round1_tenths.
  - exists (round_half_even (cpu_load * 10)). rewrite <- RL at 1. apply round1_tenths.
Qed.

(** X7: the load [get_cpu_temperature_linux] returns is at least 0.1 after
    rounding, so the load field of a wire line is never the text 0.0. *)
Theorem load_field_is_never_zero (h : host) (lg : logger) :
  let cpu_load := snd (snd (get_cpu_temperature_linux h lg)) in
  1 # 10 <= cpu_load /\ format_1f cpu_load <> "0.0"%string.
Proof.
  intros cpu_load. destruct (reading_bounds h lg) as [_ L]. fold cpu_load in L.
  split; [exact L|]. intros E.
  pose proof (format_1f_round_trip cpu_load ltac:(lra)) as R.
  destruct (reading_is_rounded h lg) as [_ RL]. fold cpu_load in RL.
  rewrite E, RL in R.
  assert (P0 : py_float "0.0" = Some 0) by reflexivity.
  rewrite P0 in R. injection R as R. rewrite <- R in L. lra.
Qed.

End MoreAboutReadings.

(* ===================================================================== *)
(** ** Further facts about the loop *)
(* ===================================================================== *)

Module SessionFacts.
Import PyText PyNum Host Sensors Monitor Scenario Discovery Observed.
Import NumFacts TextFacts SensorFacts WireFacts LoopFacts ReadingFacts.
Local Open Scope Z_scope.
Local Open Scope list_scope.

(** [stop] on an open port: one [close]. *)
Lemma stop_open (m : monitor) :
  connected m = true ->
  running (stop m) = false /\ connected (stop m) = false
  /\ port (stop m) = port m ++ [Closed]
  /\ error_count (stop m) = error_count m /\ max_errors (stop m) = max_errors m.
Proof.
  intros C. unfold stop.
  assert (C' : connected (set_running false m) = true) by exact C.
  rewrite C'. repeat split.
Qed.




(** What a pass does to the error count. *)
Lemma pass_budget (t : tick) (m : monitor) (k : Z) :
  0 <= error_count m < max_errors m ->
  match pass t m k with
  | (m', _, Continue) =>
      max_errors m' = max_errors m /\ 0 <= error_count m' < max_errors m
  | (m', _, Break) =>
      max_errors m' = max_errors m /\ 0 <= error_count m' <= max_errors m
  | (m', _, Exit) =>
      max_errors m' = max_errors m /\ 0 <= error_count m' < max_errors m
  end.
Proof.
  intros B. destruct t as [h w inc | | |].
  - unfold pass. destruct (get_cpu_temperature_linux h (log m)) as [lg [t l]].
    unfold send_data.
    change (connected (set_log lg m)) with (connected m).
    destruct (connected m); [destruct w|].
    + set (m1 := set_error_count 0 _).
      destruct (negb (daemon_mode m1) || ((k + 1) mod 10 =? 0));
        destruct (read_response inc _) as [resp |];
        try destruct (contains "ERROR" resp || contains "no data" resp)%bool;
        cbn; split; try reflexivity; lia.
    + cbn [emit set_log set_error_count error_count max_errors].
      destruct (max_errors m <=? error_count m + 1) eqn:L;
        [apply Z.leb_le in L | apply Z.leb_gt in L]; cbn; split; try reflexivity; lia.
    + cbn [emit set_log set_error_count error_count max_errors].
      destruct (max_errors m <=? error_count m + 1) eqn:L;
        [apply Z.leb_le in L | apply Z.leb_gt in L]; cbn; split; try reflexivity; lia.
  - cbn. split; [reflexivity | lia].
  - cbn [pass emit set_log set_error_count error_count max_errors].
    destruct (max_errors m <=? error_count m + 1) eqn:L;
      [apply Z.leb_le in L | apply Z.leb_gt in L]; cbn; split; try reflexivity; lia.
  - cbn [pass]. unfold stop.
    destruct (connected (set_running false m)); cbn; split; try reflexivity; lia.
Qed.

Lemma stop_keeps_count (m : monitor) :
  error_count (stop m) = error_count m /\ max_errors (stop m) = max_errors m.
Proof. unfold stop. destruct (connected (set_running false m)); split; reflexivity. Qed.

(** The error count over a run of the loop. *)
Lemma loop_budget (ticks : list tick) :
  forall (m : monitor) (k : Z),
    0 <= error_count m < max_errors m ->
    match loop ticks m k with
    | (m', e, _) =>
        max_errors m' = max_errors m
        /\ 0 <= error_count m' <= max_errors m
        /\ (e = Pending -> error_count m' < max_errors m)
    end.
Proof.
  induction ticks as [| t ticks IH]; intros m k B; cbn [loop].
  - destruct (running m); cbn [negb].
    + repeat split; lia.
    + destruct (stop_keeps_count m) as [-> ->]. repeat split; first [lia | discriminate].
  - destruct (running m); cbn [negb].
    2:{ destruct (stop_keeps_count m) as [-> ->]. repeat split; first [lia | discriminate]. }
    pose proof (pass_budget t m k B) as P.
    destruct (pass t m k) as [[m1 k1] [| |]].
    + destruct P as [M1 B1]. rewrite <- M1 in B1. specialize (IH m1 k1 B1).
      destruct (loop ticks m1 k1) as [[m' e] rest].
      destruct IH as (M & Bm & Pe). rewrite M1 in *. repeat split; try lia. exact Pe.
    + destruct P as [M1 B1]. destruct (stop_keeps_count m1) as [-> ->].
      repeat split; first [lia | discriminate].
    + destruct P as [M1 B1]. destruct (stop_keeps_count m1) as [-> ->].
      repeat split; first [lia | discriminate].
Qed.

(** What a pass that counts against the budget leaves behind. *)
Lemma error_pass_effect (t : tick) (m : monitor) (k : Z) :
  counts_as_error t = true -> connected m = true ->
  exists m', pass t m k
             = (m', k, if max_errors m <=? error_count m + 1 then Break else Continue)
    /\ connected m' = true /\ running m' = running m
    /\ error_count m' = error_count m + 1 /\ max_errors m' = max_errors m
    /\ port m' = port m.
Proof.
  intros E C. destruct t as [h [|] inc | | |]; try discriminate E.
  - exact (failed_pass_effect h inc m k C).
  - cbn [pass emit set_log set_error_count error_count max_errors].
    destruct (max_errors m <=? error_count m + 1);
      eexists; (split; [reflexivity|]); repeat split; exact C.
Qed.

(** Failed sends and raised passes, in any mix, that use up what is left
    of the error budget end the loop at the last of them. *)
Lemma loop_exhausts_budget_on_errors (errs : list tick) :
  forall (rest : list tick) (m : monitor) (k : Z),
    Forall (fun t => counts_as_error t = true) errs ->
    errs <> [] ->
    connected m = true -> running m = true ->
    error_count m + Z.of_nat (List.length errs) = max_errors m ->
    exists m', loop (errs ++ rest) m k = (m', Returned true, rest)
      /\ running m' = false /\ connected m' = false
      /\ error_count m' = max_errors m
      /\ port m' = port m ++ [Closed].
Proof.
  induction errs as [| t errs IH]; intros rest m k F NE C R E; [congruence|].
  inversion F as [| t' fs Ft Ffs]; subst.
  destruct (error_pass_effect t m k Ft C) as (m1 & P & C1 & R1 & E1 & M1 & P1).
  cbn [app loop]. rewrite R. cbn [negb]. rewrite P.
  cbn [List.length] in E. rewrite Nat2Z.inj_succ in E.
  destruct errs as [| t2 errs].
  - cbn [List.length] in E.
    replace (max_errors m <=? error_count m + 1) with true
      by (symmetry; apply Z.leb_le; lia).
    destruct (stop_open m1 C1) as (Rs & Cs & Ps & Es & Ms).
    eexists. split; [reflexivity|]. repeat split; try assumption; [lia | congruence].
  - replace (max_errors m <=? error_count m + 1) with false
      by (symmetry; apply Z.leb_gt; cbn [List.length] in E; lia).
    destruct (IH rest m1 k Ffs) as (m' & L & Rm & Cm & Em & Pm);
      [discriminate | exact C1 | congruence | lia |].
    exists m'. split; [exact L|]. repeat split; congruence.
Qed.

Lemma count_readings_app (a b : logger) :
  count_readings (a ++ b) = count_readings a + count_readings b.
Proof.
  induction a as [| [lv msg] a IH]; cbn [app count_readings]; [reflexivity|].
  destruct lv; try exact IH; destruct msg; try exact IH; rewrite IH; lia.
Qed.

(** What a pass whose write completes adds to the log. *)
Lemma good_pass_log (h : host) (inc : option string) (m : monitor) (k : Z) :
  connected m = true ->
  exists m', pass (Sample h true inc) m k = (m', k + 1, Continue)
    /\ connected m' = true /\ running m' = running m
    /\ daemon_mode m' = daemon_mode m
    /\ count_readings (log m')
       = count_readings (log m)
         + (if negb (daemon_mode m) || ((k + 1) mod 10 =? 0) then 1 else 0).
Proof.
  intros C. unfold pass.
  pose proof (reading_log h (log m)) as RL.
  destruct (get_cpu_temperature_linux h (log m)) as [lg [t l]]. cbn [fst] in RL.
  assert (CL : count_readings lg = count_readings (log m)).
  { destruct RL as [-> | ->]; [reflexivity|]. rewrite count_readings_app. cbn. lia. }
  unfold send_data.
  change (connected (set_log lg m)) with (connected m). rewrite C.
  set (m0 := port_do _ _).
  change (daemon_mode (set_error_count 0 m0)) with (daemon_mode m).
  destruct (negb (daemon_mode m) || ((k + 1) mod 10 =? 0));
    destruct (read_response inc _) as [resp |];
    try destruct (contains "ERROR" resp || contains "no data" resp)%bool;
    eexists; (split; [reflexivity|]); repeat split; try exact C;
    cbn [log emit set_log set_error_count port_do m0];
    rewrite ?count_readings_app; cbn [count_readings]; lia.
Qed.

Lemma tenth_step (k : Z) :
  0 <= k -> (k + 1) / 10 = k / 10 + (if (k + 1) mod 10 =? 0 then 1 else 0).
Proof.
  intros K. destruct ((k + 1) mod 10 =? 0) eqn:E;
    [apply Z.eqb_eq in E | apply Z.eqb_neq in E];
    pose proof (Z.div_mod (k + 1) 10 ltac:(lia));
    pose proof (Z.div_mod k 10 ltac:(lia));
    pose proof (Z.mod_pos_bound (k + 1) 10 ltac:(lia));
    pose proof (Z.mod_pos_bound k 10 ltac:(lia)); lia.
Qed.

(** The readings logged over a run of passes whose writes complete. *)
Lemma loop_logs_readings (goods : list tick) :
  forall (m : monitor) (k : Z),
    Forall (fun t => is_good_send t = true) goods ->
    connected m = true -> running m = true -> 0 <= k ->
    exists m', loop goods m k = (m', Pending, [])
      /\ count_readings (log m')
         = count_readings (log m)
           + (if daemon_mode m
              then (k + Z.of_nat (List.length goods)) / 10 - k / 10
              else Z.of_nat (List.length goods)).
Proof.
  induction goods as [| t goods IH]; intros m k F C R K; cbn [loop]; rewrite R; cbn [negb].
  - exists m. split; [reflexivity|]. cbn [List.length]. rewrite Z.add_0_r.
    destruct (daemon_mode m); lia.
  - inversion F as [| t' gs Ft Fgs]; subst.
    destruct t as [h [|] inc | | |]; try discriminate Ft.
    destruct (good_pass_log h inc m k C) as (m1 & -> & C1 & R1 & D1 & L1).
    destruct (IH m1 (k + 1) Fgs C1 ltac:(congruence) ltac:(lia)) as (m' & L & Cn).
    exists m'. split; [exact L|]. rewrite Cn, L1, D1.
    cbn [List.length]. rewrite Nat2Z.inj_succ.
    replace (k + 1 + Z.of_nat (List.length goods))
      with (k + Z.succ (Z.of_nat (List.length goods))) by lia.
    destruct (daemon_mode m); cbn [negb orb]; [| lia].
    rewrite (tenth_step k K). lia.
Qed.

End SessionFacts.

Section MoreAboutTheLoop.
Import PyText PyNum Host Sensors Monitor Scenario Discovery Observed.
Import NumFacts TextFacts SensorFacts WireFacts LoopFacts ReadingFacts SessionFacts.
Local Open Scope Z_scope.
Local Open Scope list_scope.



(** X9: the error count never passes the budget: from a count within the
    budget, whatever the passes, [run] leaves [max_errors] as it was and the
    count between 0 and [max_errors], and below [max_errors] as long as the
    loop goes on. *)
Theorem run_keeps_error_budget (ticks : list tick) (m : monitor) :
  0 <= error_count m < max_errors m ->
  match run ticks m with
  | (m', e, _) =>
      max_errors m' = max_errors m
      /\ 0 <= error_count m' <= max_errors m
      /\ match e with
         | Pending => error_count m' < max_errors m
         | Returned _ | SystemExit => True
         end
  end.
Proof.
  intros B. unfold run. destruct (connected m); cbn [negb].
  - pose proof (loop_budget ticks (emit INFO Started (set_running true m)) 0 B) as L.
    destruct (loop ticks _ 0) as [[m' e] rest].
    destruct L as (M & Bm & P).
    change (max_errors (emit INFO Started (set_running true m))) with (max_errors m)
      in M, Bm, P.
    split; [exact M|]. split; [exact Bm|].
    destruct e; try exact I. apply P. reflexivity.
  - cbn. repeat split; lia.
Qed.

(** X9 at a fresh monitor and a mix of passes. *)
Lemma run_keeps_error_budget_witness :
  match run [failed_pass; Fault; good_pass; Fault] connected_monitor with
  | (m', e, _) =>
      max_errors m' = max_errors connected_monitor
      /\ 0 <= error_count m' <= max_errors connected_monitor
      /\ match e with
         | Pending => error_count m' < max_errors connected_monitor
         | Returned _ | SystemExit => True
         end
  end.
Proof.
  apply (run_keeps_error_budget [failed_pass; Fault; good_pass; Fault] connected_monitor).
  split; [discriminate | reflexivity].
Defined.

(** X10: a pass that raises counts against the error budget like a failed
    send: with [max_errors = 10], wherever the loop stands, ten passes in a
    row each of which raises or fails to send end [run] at the pass that
    brings the count to 10, with the monitor stopped and closed; the passes
    after it are never started. *)
Theorem ten_errors_stop_the_loop
    (pre errs rest : list tick) (m m1 : monitor) :
  connected m = true -> error_count m = 0 -> max_errors m = 10 ->
  run pre m = (m1, Pending, []) ->
  List.length errs = 10%nat -> Forall (fun t => counts_as_error t = true) errs ->
  let n := Z.to_nat (10 - error_count m1) in
  (1 <= n <= 10)%nat
  /\ exists m', run (pre ++ errs ++ rest) m = (m', Returned true, skipn n errs ++ rest)
       /\ running m' = false /\ connected m' = false
       /\ error_count m' = 10
       /\ port m' = port m1 ++ [Closed].
Proof.
  intros C E M L Len F n. unfold run in *. rewrite C in *. cbn [negb] in *.
  set (m0 := emit INFO Started (set_running true m)) in *.
  destruct (loop_pending_app pre m0 m1 0) as (C1 & R1 & M1 & B1 & k1 & A);
    [exact C | reflexivity | cbn; lia | exact L |].
  assert (M1' : max_errors m1 = 10) by (rewrite M1; exact M).
  assert (Hn : (1 <= n <= 10)%nat) by (unfold n; lia).
  split; [exact Hn|].
  assert (S : errs ++ rest = firstn n errs ++ (skipn n errs ++ rest))
    by (rewrite app_assoc, firstn_skipn; reflexivity).
  destruct (loop_exhausts_budget_on_errors (firstn n errs) (skipn n errs ++ rest) m1 k1)
    as (m' & H & R' & C' & E' & P').
  - apply Forall_firstn, F.
  - intros Z. apply (f_equal (@List.length tick)) in Z.
    rewrite firstn_length_le in Z by lia. simpl in Z. lia.
  - exact C1.
  - exact R1.
  - rewrite firstn_length_le by lia. unfold n. lia.
  - exists m'. split; [rewrite A, S; exact H|].
    repeat split; try assumption. congruence.
Qed.

(** X10 at five raised passes and five failed sends, in turn. *)
Lemma ten_errors_stop_the_loop_witness :
  exists m', run ([] ++ [Fault; failed_pass; Fault; failed_pass; Fault; failed_pass;
                         Fault; failed_pass; Fault; failed_pass] ++ [good_pass])
                 connected_monitor
             = (m', Returned true, [good_pass])
    /\ running m' = false /\ connected m' = false
    /\ error_count m' = 10
    /\ port m' = port (fst (fst (run [] connected_monitor))) ++ [Closed].
Proof.
  apply (ten_errors_stop_the_loop []
           [Fault; failed_pass; Fault; failed_pass; Fault; failed_pass;
            Fault; failed_pass; Fault; failed_pass] [good_pass]
           connected_monitor (fst (fst (run [] connected_monitor))));
    try reflexivity.
  repeat constructor.
Defined.

(** X11: over passes whose sends all succeed, an interactive monitor logs
    every reading and a daemon one reading in ten: after [n] such passes
    [run] has logged [n] readings, in daemon mode [n / 10]. *)
Theorem readings_are_logged_one_in_ten (goods : list tick) (m : monitor) :
  connected m = true -> Forall (fun t => is_good_send t = true) goods ->
  exists m', run goods m = (m', Pending, [])
    /\ count_readings (log m')
       = count_readings (log m)
         + (if daemon_mode m
            then Z.of_nat (List.length goods) / 10
            else Z.of_nat (List.length goods)).
Proof.
  intros C F. unfold run. rewrite C. cbn [negb].
  destruct (loop_logs_readings goods (emit INFO Started (set_running true m)) 0 F C
              eq_refl ltac:(lia)) as (m' & L & N).
  exists m'. split; [exact L|]. rewrite N.
  cbn [emit set_log set_running log daemon_mode]. rewrite count_readings_app.
  cbn [count_readings]. rewrite Z.add_0_l, Z.add_0_r, Z.div_0_l by lia.
  destruct (daemon_mode m); lia.
Qed.

(** X11 at twenty-five good passes of a daemon. *)
Lemma readings_are_logged_one_in_ten_witness :
  exists m', run (repeat good_pass 25) (fst (connect true true (init [] true)))
             = (m', Pending, [])
    /\ count_readings (log m') = 2.
Proof.
  apply (readings_are_logged_one_in_ten (repeat good_pass 25)
           (fst (connect true true (init [] true))) eq_refl).
  repeat constructor.
Defined.




End MoreAboutTheLoop.

(* ===================================================================== *)
(** ** Facts about the source check and the ports *)
(* ===================================================================== *)

Module DiscoveryFacts.
Import PyText PyNum Host Sensors Scenario Discovery Observed.
Import NumFacts TextFacts SensorFacts.
Local Open Scope list_scope.

Lemma in_ports_spec (port : string) (ports : list string) :
  in_ports port ports = true <-> In port ports.
Proof.
  induction ports as [| p rest IH]; cbn [in_ports In]; [split; [discriminate | tauto]|].
  rewrite orb_true_iff, String.eqb_eq, IH. tauto.
Qed.

Lemma add_detected_spec (detected : list string) :
  forall ports, NoDup ports ->
    NoDup (add_detected detected ports)
    /\ (forall p, In p (add_detected detected ports) <-> In p ports \/ In p detected)
    /\ exists added, add_detected detected ports = ports ++ added.
Proof.
  induction detected as [| d rest IH]; intros ports N; cbn [add_detected].
  - repeat split; [exact N | tauto | intros [H | []]; exact H |].
    exists []. symmetry. apply app_nil_r.
  - destruct (in_ports d ports) eqn:E.
    + apply in_ports_spec in E.
      destruct (IH ports N) as (N' & M & A).
      repeat split; [exact N' | | | exact A].
      * intros H. apply M in H as [H | H]; [left; exact H | right; right; exact H].
      * intros [H | [<- | H]]; apply M; [left; exact H | left; exact E | right; exact H].
    + assert (NI : ~ In d ports)
        by (intros I; apply in_ports_spec in I; congruence).
      assert (N1 : NoDup (ports ++ [d])).
      { apply NoDup_app; [exact N | repeat constructor; intros [] |].
        intros x Hx [<- | []]. exact (NI Hx). }
      destruct (IH (ports ++ [d]) N1) as (N' & M & [added A]).
      repeat split; [exact N' | | |].
      * intros H. apply M in H as [H | H]; [| right; right; exact H].
        apply in_app_or in H as [H | [<- | []]]; [left; exact H | right; left; reflexivity].
      * intros [H | [<- | H]]; apply M;
          [left; apply in_or_app; left; exact H
          | left; apply in_or_app; right; left; reflexivity
          | right; exact H].
      * exists (d :: added). rewrite A, <- app_assoc. reflexivity.
Qed.

Lemma common_ports_distinct : NoDup common_ports.
Proof.
  unfold common_ports.
  repeat (constructor; [cbn [In]; intuition discriminate|]).
  constructor.
Qed.

Lemma NoDup_filter {A} (f : A -> bool) (l : list A) : NoDup l -> NoDup (filter f l).
Proof.
  induction 1 as [| x l Hx _ IH]; cbn [filter]; [constructor|].
  destruct (f x); [| exact IH].
  constructor; [| exact IH]. intros H. apply filter_In in H as [H _]. exact (Hx H).
Qed.

(** Digits only: [strip] leaves the text as it is and [int] reads its
    value. *)
Lemma strip_decimal (s : string) : forall_chars is_decimal s = true -> strip s = s.
Proof.
  intros D. unfold strip.
  assert (L : lstrip s = s).
  { destruct s as [| c s]; [reflexivity|]. cbn [forall_chars] in D.
    apply andb_true_iff in D as [Hc _].
    destruct (is_decimal_not_sign c Hc) as (_ & _ & _ & Sp & _).
    cbn [lstrip]. rewrite Sp. reflexivity. }
  rewrite L. clear L.
  induction s as [| c s IH]; [reflexivity|].
  cbn [forall_chars] in D. apply andb_true_iff in D as [Hc Ds].
  destruct (is_decimal_not_sign c Hc) as (_ & _ & _ & Sp & _).
  cbn [rstrip]. rewrite (IH Ds), Sp. reflexivity.
Qed.

Lemma int_digits_decimal (s : string) : forall acc b,
  forall_chars is_decimal s = true -> (is_empty s = false \/ b = true) ->
  int_digits s acc b = Some (digits_val s acc).
Proof.
  induction s as [| c s IH]; intros acc b D H; cbn [int_digits digits_val].
  - destruct H as [H | ->]; [discriminate H | reflexivity].
  - cbn [forall_chars] in D. apply andb_true_iff in D as [Hc Ds].
    rewrite Hc. apply IH; [exact Ds | right; reflexivity].
Qed.

Lemma py_int_numeral (n : N) : py_int (str_of_N n) = Some (Z.of_N n).
Proof.
  pose proof (str_of_N_all_decimal n) as D.
  pose proof (str_of_N_not_empty n) as NE.
  pose proof (str_of_N_value n) as V.
  pose proof (int_digits_decimal (str_of_N n) 0 false D (or_introl NE)) as I.
  rewrite V in I.
  destruct (str_of_N n) as [| c s]; [discriminate NE|].
  cbn [forall_chars] in D. apply andb_true_iff in D as [Hc _].
  destruct (is_decimal_not_sign c Hc) as (Pl & Mi & _).
  unfold py_int.
  destruct c as [[|] [|] [|] [|] [|] [|] [|] [|]];
    try (rewrite I; reflexivity); congruence.
Qed.

End DiscoveryFacts.

Section MoreAboutDiscovery.
Import PyText PyNum Host Sensors Scenario Discovery Observed.
Import NumFacts TextFacts SensorFacts DiscoveryFacts.
Local Open Scope list_scope.


(** X14: [get_available_ports] lists each port once; it lists exactly the
    common ports that exist and the detected ports, and the common ports
    that exist come first, in their fixed order. *)
Theorem available_ports_are_distinct
    (path_exists : string -> bool) (detected : list string) :
  NoDup (get_available_ports path_exists detected)
  /\ (forall p, In p (get_available_ports path_exists detected)
                <-> (In p common_ports /\ path_exists p = true) \/ In p detected)
  /\ exists added,
       get_available_ports path_exists detected
       = filter path_exists common_ports ++ added.
Proof.
  unfold get_available_ports.
  destruct (add_detected_spec detected (filter path_exists common_ports)
              (NoDup_filter _ _ common_ports_distinct)) as (N & M & A).
  split; [exact N|]. split; [| exact A].
  intros p. rewrite M, filter_In. tauto.
Qed.

(** X15: the port [main] goes on with, when [--port] is not given, is one
    of the ports listed: alone in the list it is taken without a prompt,
    and at the prompt the number [k] takes the [k]-th port, for [k] from 1
    to the length of the list, while 0, a number beyond the list or a text
    that is no number takes none. *)
Theorem chosen_port_is_listed (ports : list string) :
  (forall answer p, select_port None ports answer = Use p -> In p ports)
  /\ (forall k : nat, (1 <= k <= List.length ports)%nat -> (2 <= List.length ports)%nat ->
        exists p, nth_error ports (k - 1) = Some p
          /\ select_port None ports (Typed (str_of_N (N.of_nat k))) = Use p)
  /\ (forall k : nat, (2 <= List.length ports)%nat ->
        (k = 0 \/ List.length ports < k)%nat ->
        select_port None ports (Typed (str_of_N (N.of_nat k))) = Return).
Proof.
  assert (Num : forall k : nat,
            strip (str_of_N (N.of_nat k)) = str_of_N (N.of_nat k)
            /\ is_empty (str_of_N (N.of_nat k)) = false
            /\ py_int (str_of_N (N.of_nat k)) = Some (Z.of_nat k)).
  { intros k. split; [apply strip_decimal, str_of_N_all_decimal|].
    split; [apply str_of_N_not_empty|].
    rewrite py_int_numeral, nat_N_Z. reflexivity. }
  split; [| split].
  - intros answer p. unfold select_port.
    destruct ports as [| p0 [| p1 rest]]; [discriminate | intros [= <-]; left; reflexivity |].
    destruct answer as [text | |]; try discriminate.
    destruct (is_empty (strip text)); [discriminate|].
    destruct (py_int (strip text)) as [n |]; [| discriminate].
    destruct ((0 <=? n - 1)%Z && (n - 1 <? Z.of_nat (List.length (p0 :: p1 :: rest)))%Z);
      [| discriminate].
    destruct (nth_error (p0 :: p1 :: rest) (Z.to_nat (n - 1))) as [q |] eqn:E;
      [| discriminate].
    intros [= <-]. exact (nth_error_In _ _ E).
  - intros k K L. destruct (Num k) as (S & NE & P).
    destruct (nth_error ports (k - 1)) as [p |] eqn:E;
      [| apply nth_error_None in E; lia].
    exists p. split; [reflexivity|]. unfold select_port.
    destruct ports as [| p0 [| p1 rest]]; [cbn in L; lia | cbn in L; lia |].
    rewrite S, NE, P.
    replace ((0 <=? Z.of_nat k - 1)%Z
             && (Z.of_nat k - 1 <? Z.of_nat (List.length (p0 :: p1 :: rest)))%Z)
      with true by (symmetry; apply andb_true_iff; split;
                    [apply Z.leb_le | apply Z.ltb_lt]; lia).
    replace (Z.to_nat (Z.of_nat k - 1)) with (k - 1)%nat by lia.
    rewrite E. reflexivity.
  - intros k L K. destruct (Num k) as (S & NE & P). unfold select_port.
    destruct ports as [| p0 [| p1 rest]]; [cbn in L; lia | cbn in L; lia |].
    rewrite S, NE, P.
    replace ((0 <=? Z.of_nat k - 1)%Z
             && (Z.of_nat k - 1 <? Z.of_nat (List.length (p0 :: p1 :: rest)))%Z)
      with false; [reflexivity|].
    symmetry. apply andb_false_iff. destruct K as [-> | K];
      [left; reflexivity | right; apply Z.ltb_ge; lia].
Qed.

(** X15 at three ports and the answer 2. *)
Lemma chosen_port_is_listed_witness :
  In "/dev/ttyUSB1"%string ["/dev/ttyUSB0"; "/dev/ttyUSB1"; "/dev/ttyACM0"]%string
  /\ select_port None ["/dev/ttyUSB0"; "/dev/ttyUSB1"; "/dev/ttyACM0"]%string
       (Typed "0") = Return.
Proof.
  destruct (chosen_port_is_listed ["/dev/ttyUSB0"; "/dev/ttyUSB1"; "/dev/ttyACM0"]%string)
    as (A & _ & C).
  split.
  - exact (A (Typed " 2 ") "/dev/ttyUSB1"%string eq_refl).
  - exact (C 0%nat ltac:(cbn; lia) (or_introl eq_refl)).
Defined.

End MoreAboutDiscovery.

Section MoreAboutTheWire.
Import PyText PyNum Host Sensors Monitor Scenario Discovery Observed.
Import NumFacts TextFacts SensorFacts WireFacts PatternFacts.
Local Open Scope list_scope.

Lemma decimal_is_plain (s : string) :
  forall_chars is_decimal s = true -> forall_chars plain s = true.
Proof.
  induction s as [| c s IH]; cbn [forall_chars]; [reflexivity|].
  intros H. apply andb_true_iff in H as [Hc Hs]. rewrite (IH Hs), andb_true_r.
  unfold is_decimal, code_between in Hc. apply andb_true_iff in Hc as [_ Hc].
  apply N.leb_le in Hc. unfold plain. apply N.ltb_lt. lia.
Qed.

Lemma format_1f_is_plain (x : Q) : forall_chars plain (format_1f x) = true.
Proof.
  destruct (format_1f_shape x) as (whole & tenth & -> & _ & W & T).
  rewrite !forall_chars_app, (decimal_is_plain whole W).
  assert (Tp : forall_chars plain (String tenth "") = true)
    by (apply decimal_is_plain; cbn [forall_chars]; rewrite T; reflexivity).
  rewrite Tp. destruct (Qle_bool 0 x); reflexivity.
Qed.

Lemma encode_plain (s : string) :
  forall_chars plain s = true ->
  Forall (fun b => (b < 128)%N) (encode s)
  /\ List.length (encode s) = String.length s.
Proof.
  induction s as [| c s IH]; cbn [forall_chars encode String.length]; [split; constructor|].
  intros H. apply andb_true_iff in H as [Hc Hs]. destruct (IH Hs) as [F L].
  unfold plain in Hc. rewrite Hc. cbn [app List.length]. split.
  - constructor; [apply N.ltb_lt, Hc | exact F].
  - rewrite L. reflexivity.
Qed.

(** X16: the bytes written for a reading are plain ASCII, one byte for
    each character of the wire line, whatever the two numbers are. *)
Theorem wire_bytes_are_ascii (cpu_temp cpu_load : Q) :
  Forall (fun b => (b < 128)%N) (encode (wire_line cpu_temp cpu_load ++ nl)%string)
  /\ List.length (encode (wire_line cpu_temp cpu_load ++ nl)%string)
     = String.length (wire_line cpu_temp cpu_load ++ nl)%string.
Proof.
  apply encode_plain. unfold wire_line.
  rewrite !forall_chars_app, !format_1f_is_plain. reflexivity.
Qed.

End MoreAboutTheWire.
